(** * gpu_checker: a shallow embedding of [gpu_checker.py]

    The monitor asks the scheduler for GPU nodes ([find_slurm_nodes]),
    probes each one over ssh ([check_gpu]), drains the ones that fail
    ([drain_node]) and mails the operators ([send_email]).

    Layout of the development:
    - [Py]: the Python built-ins the program calls ([str.split],
      [str.replace], [str.lower], [str.strip], [int], [list[-1]], ...);
    - [ConfigParser]: the part of the standard [configparser] module the
      program relies on (item assignment, [write], [read], item lookup);
    - the program itself, function by function, in a state-and-exception
      monad over the interpreter's observable state;
    - the properties.

    Text is modelled by [string], one [ascii] per character.  Characters
    outside ASCII are carried through unchanged and are never classified
    as spaces, digits or cased letters. *)

From Stdlib Require Import String Ascii List ZArith Lia Bool Arith DecimalString.
Import ListNotations.

Local Open Scope string_scope.
Local Open Scope list_scope.

Infix "+++" := String.append (at level 60, right associativity).

(* ================================================================== *)
(** ** Exceptions and results *)

Inductive exn : Type :=
| IndexError
| ValueError
| TypeError
| KeyError (key : string)
| Exception (msg : string)        (* [raise Exception(command_report)] *)
| SMTPException
| MissingSectionHeaderError
| DuplicateSectionError (section : string)
| DuplicateOptionError (section option : string)
| ParsingError
| InterpolationError.

Inductive result (A : Type) : Type :=
| Ok (a : A)
| Raise (e : exn).
Arguments Ok {A} a.
Arguments Raise {A} e.

Definition raises {A} (r : result A) : Prop := exists e, r = Raise e.

(* ================================================================== *)
(** ** Python built-ins *)

Module Py.

(** Characters. *)
Definition LF : ascii := "010"%char.
Definition TAB : ascii := "009"%char.
Definition SP : ascii := " "%char.
Definition nl : string := String LF EmptyString.
Definition dquote : string := String "034"%char EmptyString.

(** [ch.isspace()] on ASCII: TAB, LF, VT, FF, CR, FS, GS, RS, US, space. *)
Definition isspace (c : ascii) : bool :=
  let n := nat_of_ascii c in
  (((9 <=? n) && (n <=? 13)) || ((28 <=? n) && (n <=? 31)) || (n =? 32))%nat.

(** The spaces [int] skips around an ASCII literal: TAB..CR and space. *)
Definition is_c_space (c : ascii) : bool :=
  let n := nat_of_ascii c in
  (((9 <=? n) && (n <=? 13)) || (n =? 32))%nat.

Definition digit_val (c : ascii) : option Z :=
  let n := nat_of_ascii c in
  if ((48 <=? n) && (n <=? 57))%nat then Some (Z.of_nat (n - 48)) else None.

Definition lower_char (c : ascii) : ascii :=
  let n := nat_of_ascii c in
  if ((65 <=? n) && (n <=? 90))%nat then ascii_of_nat (n + 32) else c.

(** [s.lower()] *)
Fixpoint lower (s : string) : string :=
  match s with
  | EmptyString => EmptyString
  | String c r => String (lower_char c) (lower r)
  end.

(** [s.split(sep)] for a one-character separator: never the empty list. *)
Fixpoint split (sep : ascii) (s : string) : list string :=
  match s with
  | EmptyString => [EmptyString]
  | String c r =>
      if Ascii.eqb c sep then EmptyString :: split sep r
      else match split sep r with
           | [] => [String c EmptyString]
           | h :: t => String c h :: t
           end
  end.

(** [sep.join(parts)] *)
Definition join (sep : string) (parts : list string) : string :=
  String.concat sep parts.

(** [s.replace(old, new)] for a one-character [old]. *)
Fixpoint replace (old : ascii) (new : string) (s : string) : string :=
  match s with
  | EmptyString => EmptyString
  | String c r =>
      if Ascii.eqb c old then new +++ replace old new r
      else String c (replace old new r)
  end.

(** [s.lstrip()], [s.rstrip()], [s.strip()] *)
Fixpoint lstrip (s : string) : string :=
  match s with
  | EmptyString => EmptyString
  | String c r => if isspace c then lstrip r else s
  end.

Fixpoint rstrip (s : string) : string :=
  match s with
  | EmptyString => EmptyString
  | String c r =>
      match rstrip r with
      | EmptyString => if isspace c then EmptyString else String c EmptyString
      | r' => String c r'
      end
  end.

Definition strip (s : string) : string := rstrip (lstrip s).

(** [s.startswith(p)] *)
Definition startswith (p s : string) : bool := String.prefix p s.

(** [c in s] for a character [c] *)
Fixpoint contains (c : ascii) (s : string) : bool :=
  match s with
  | EmptyString => false
  | String d r => Ascii.eqb d c || contains c r
  end.

(** [x in xs] for a list of strings *)
Definition str_in (x : string) (xs : list string) : bool :=
  existsb (String.eqb x) xs.

(** [s[0:-1]] *)
Fixpoint drop_last (s : string) : string :=
  match s with
  | EmptyString => EmptyString
  | String c EmptyString => EmptyString
  | String c r => String c (drop_last r)
  end.

(** [xs[-1]] *)
Definition index_last {A} (xs : list A) : result A :=
  match rev xs with
  | [] => Raise IndexError
  | x :: _ => Ok x
  end.

(** [xs[0]] *)
Definition index_first {A} (xs : list A) : result A :=
  match xs with
  | [] => Raise IndexError
  | x :: _ => Ok x
  end.

(** [str(n)] for an integer, and [str(b)] for a boolean. *)
Definition str_of_int (n : Z) : string := NilZero.string_of_int (Z.to_int n).
Definition str_of_bool (b : bool) : string := if b then "True" else "False".

(** [int(s)] in base ten.  After the leading spaces comes an optional
    sign, then decimal digits in groups separated by single underscores,
    then spaces up to the end.  [None] stands for [ValueError].  (The
    interpreter's configurable cap on the number of digits is left out.) *)
Fixpoint int_digits (acc : Z) (after_digit : bool) (s : string) : option (Z * string) :=
  match s with
  | EmptyString => if after_digit then Some (acc, EmptyString) else None
  | String c r =>
      match digit_val c with
      | Some d => int_digits (10 * acc + d) true r
      | None =>
          if Ascii.eqb c "_" then
            if after_digit then
              match r with
              | String c' _ =>
                  match digit_val c' with
                  | Some _ => int_digits acc false r
                  | None => None
                  end
              | EmptyString => None
              end
            else None
          else if after_digit then Some (acc, s) else None
      end
  end.

Fixpoint all_c_space (s : string) : bool :=
  match s with
  | EmptyString => true
  | String c r => is_c_space c && all_c_space r
  end.

Fixpoint skip_c_space (s : string) : string :=
  match s with
  | EmptyString => EmptyString
  | String c r => if is_c_space c then skip_c_space r else s
  end.

Definition int_signed (s : string) : option Z :=
  let '(neg, body) :=
    match s with
    | String "-" r => (true, r)
    | String "+" r => (false, r)
    | _ => (false, s)
    end in
  match int_digits 0 false body with
  | Some (n, rest) =>
      if all_c_space rest then Some (if neg then (- n)%Z else n) else None
  | None => None
  end.

Definition int (s : string) : result Z :=
  match int_signed (skip_c_space s) with
  | Some n => Ok n
  | None => Raise ValueError
  end.

(** [s.splitlines()]: the lines of [s] without their ends.  On ASCII the
    line ends are LF, VT, FF, CR, FS, GS and RS, with CR LF counting as
    one; a line end at the very end of [s] opens no further line. *)
Definition is_linebreak (c : ascii) : bool :=
  let n := nat_of_ascii c in
  (((10 <=? n) && (n <=? 13)) || ((28 <=? n) && (n <=? 30)))%nat.

Fixpoint splitlines (s : string) : list string :=
  match s with
  | EmptyString => []
  | String c r =>
      if is_linebreak c then
        match r with
        | String c' r' =>
            if Ascii.eqb c "013" && Ascii.eqb c' LF
            then EmptyString :: splitlines r'
            else EmptyString :: splitlines r
        | EmptyString => [EmptyString]
        end
      else match splitlines r with
           | [] => [String c EmptyString]
           | h :: t => String c h :: t
           end
  end.

(** The values a flag of the program can hold: [None], [True], [False]. *)
Inductive value : Type :=
| NoneV
| BoolV (b : bool).

(** Truth value in a condition ([None] is false). *)
Definition truthy (v : value) : bool :=
  match v with
  | BoolV b => b
  | NoneV => false
  end.

End Py.

(* ================================================================== *)
(** ** The [configparser] module

    A [ConfigParser()] as the program creates it: delimiters [=] and [:],
    full-line comments starting with [#] or [;], no inline comments,
    [strict=True], [empty_lines_in_values=True], [allow_no_value=False],
    [BasicInterpolation], [optionxform = str.lower]. *)

Module ConfigParser.

Definition options : Type := list (string * string).

(** The parser's content: the [DEFAULT] section and the named sections,
    both in insertion order. *)
Record t : Type := mk {
  defaults : options;
  sections : list (string * options)
}.

Definition empty : t := {| defaults := []; sections := [] |}.

Definition default_section : string := "DEFAULT".
Definition MAX_INTERPOLATION_DEPTH : nat := 10.

Definition optionxform (s : string) : string := Py.lower s.

(** [d.get(k)] and [d[k] = v] on an insertion-ordered dictionary. *)
Fixpoint assoc {A} (k : string) (d : list (string * A)) : option A :=
  match d with
  | [] => None
  | (k', v) :: r => if String.eqb k k' then Some v else assoc k r
  end.

Fixpoint assoc_set {A} (k : string) (v : A) (d : list (string * A)) : list (string * A) :=
  match d with
  | [] => [(k, v)]
  | (k', v') :: r =>
      if String.eqb k k' then (k, v) :: r else (k', v') :: assoc_set k v r
  end.

Definition has_key {A} (k : string) (d : list (string * A)) : bool :=
  match assoc k d with
  | Some _ => true
  | None => false
  end.

(** *** Interpolation *)

(** [_KEYCRE = %\(([^)]+)\)s], matched just after the opening [%(]:
    the name and what follows the closing [)s]. *)
Fixpoint key_run (s : string) : option (string * string) :=
  match s with
  | EmptyString => None
  | String ")" r => Some (EmptyString, r)
  | String c r =>
      match key_run r with
      | Some (k, r') => Some (String c k, r')
      | None => None
      end
  end.

Definition key_match (s : string) : option (string * string) :=
  match key_run s with
  | Some (String c k, String "s" r) => Some (String c k, r)
  | _ => None
  end.

(** [value.replace('%%', '')] *)
Fixpoint drop_escaped_percent (s : string) : string :=
  match s with
  | EmptyString => EmptyString
  | String "%" (String "%" r) => drop_escaped_percent r
  | String c r => String c (drop_escaped_percent r)
  end.

(** [_KEYCRE.sub('', value)] *)
Fixpoint drop_keys (fuel : nat) (s : string) : string :=
  match fuel with
  | O => s
  | S f =>
      match s with
      | EmptyString => EmptyString
      | String "%" (String "(" r as r0) =>
          match key_match r with
          | Some (_, r') => drop_keys f r'
          | None => String "%" (drop_keys f r0)
          end
      | String c r => String c (drop_keys f r)
      end
  end.

(** [BasicInterpolation.before_set]: no [%] may remain. *)
Definition before_set (value : string) : result string :=
  let tmp := drop_escaped_percent value in
  let tmp := drop_keys (String.length tmp) tmp in
  if Py.contains "%" tmp then Raise ValueError else Ok value.

(** [BasicInterpolation._interpolate_some], [depth] levels left. *)
Fixpoint interpolate_some (depth : nat) (map : string -> option string)
  : string -> result string :=
  match depth with
  | O => fun _ => Raise InterpolationError
  | S d =>
      fun value =>
        (fix loop (fuel : nat) (rest : string) {struct fuel} : result string :=
           match fuel with
           | O => Ok EmptyString
           | S f =>
               match rest with
               | EmptyString => Ok EmptyString
               | String "%" (String "%" r) =>
                   match loop f r with
                   | Ok out => Ok (String "%" out)
                   | Raise e => Raise e
                   end
               | String "%" (String "(" r) =>
                   match key_match r with
                   | None => Raise InterpolationError
                   | Some (name, r') =>
                       match map (optionxform name) with
                       | None => Raise InterpolationError
                       | Some v =>
                           match (if Py.contains "%" v
                                  then interpolate_some d map v else Ok v) with
                           | Raise e => Raise e
                           | Ok sv =>
                               match loop f r' with
                               | Ok out => Ok (sv +++ out)
                               | Raise e => Raise e
                               end
                           end
                       end
                   end
               | String "%" _ => Raise InterpolationError
               | String c r =>
                   match loop f r with
                   | Ok out => Ok (String c out)
                   | Raise e => Raise e
                   end
               end
           end) (S (String.length value)) value
  end.

(** *** Lookup: [parser[section][key]] *)

Definition has_section (cfg : t) (section : string) : bool :=
  has_key section (sections cfg).

Definition section_dict (cfg : t) (section : string) : options :=
  match assoc section (sections cfg) with
  | Some d => d
  | None => []
  end.

(** The chain of the section's own options and the defaults. *)
Definition unify_values (cfg : t) (section : string) (k : string) : option string :=
  match assoc k (section_dict cfg section) with
  | Some v => Some v
  | None => assoc k (defaults cfg)
  end.

Definition has_option (cfg : t) (section option : string) : bool :=
  let option := optionxform option in
  if String.eqb section default_section then has_key option (defaults cfg)
  else has_key option (section_dict cfg section) || has_key option (defaults cfg).

Definition getitem (cfg : t) (section key : string) : result string :=
  if negb (String.eqb section default_section) && negb (has_section cfg section)
  then Raise (KeyError section)
  else if negb (has_option cfg section key) then Raise (KeyError key)
  else
    match unify_values cfg section (optionxform key) with
    | Some v => interpolate_some MAX_INTERPOLATION_DEPTH (unify_values cfg section) v
    | None => Raise (KeyError key)
    end.

(** *** Assignment: [parser[section] = {...}] *)

Definition set_section_dict (cfg : t) (section : string) (d : options) : t :=
  if String.eqb section default_section
  then {| defaults := d; sections := sections cfg |}
  else {| defaults := defaults cfg; sections := assoc_set section d (sections cfg) |}.

Fixpoint read_dict_items (section : string) (items : options)
         (added : list string) (d : options) : result options :=
  match items with
  | [] => Ok d
  | (key, value) :: r =>
      let key := optionxform key in
      if Py.str_in key added then Raise (DuplicateOptionError section key)
      else
        match (if String.eqb value EmptyString then Ok value else before_set value) with
        | Raise e => Raise e
        | Ok value => read_dict_items section r (key :: added) (assoc_set key value d)
        end
  end.

(** [__setitem__]: the section is emptied (or created, after the existing
    ones) and filled from the dictionary. *)
Definition setitem (cfg : t) (section : string) (items : options) : result t :=
  match read_dict_items section items [] [] with
  | Raise e => Raise e
  | Ok d => Ok (set_section_dict cfg section d)
  end.

(** *** [parser.write(fp)] *)

Definition write_option (kv : string * string) : string :=
  fst kv +++ " = " +++ Py.replace Py.LF (String Py.LF (String Py.TAB EmptyString)) (snd kv)
         +++ Py.nl.

Definition write_section (name : string) (items : options) : string :=
  "[" +++ name +++ "]" +++ Py.nl +++ String.concat EmptyString (map write_option items) +++ Py.nl.

Definition write (cfg : t) : string :=
  (match defaults cfg with
   | [] => EmptyString
   | d => write_section default_section d
   end)
  +++ String.concat EmptyString (map (fun s => write_section (fst s) (snd s)) (sections cfg)).

(** *** [parser.read(path)] on a parser just created

    The file is opened in text mode, so every line end reaches the parser
    as a line feed; iterating over the file yields the lines with their
    line feed. *)

Definition CR : ascii := "013"%char.

Fixpoint universal_newlines (s : string) : string :=
  match s with
  | EmptyString => EmptyString
  | String c r =>
      if Ascii.eqb c CR then
        match r with
        | String c' r' =>
            if Ascii.eqb c' Py.LF then String Py.LF (universal_newlines r')
            else String Py.LF (universal_newlines r)
        | EmptyString => Py.nl
        end
      else String c (universal_newlines r)
  end.

Fixpoint text_lines (s : string) : list string :=
  match s with
  | EmptyString => []
  | String c r =>
      if Ascii.eqb c Py.LF then Py.nl :: text_lines r
      else match text_lines r with
           | [] => [String c EmptyString]
           | h :: t => String c h :: t
           end
  end.

(** [SECTCRE = \[(?P<header>.+)\]] matched at the start of the line:
    the header runs up to the last closing bracket. *)
Fixpoint upto_last (c : ascii) (s : string) : option string :=
  match s with
  | EmptyString => None
  | String d r =>
      match upto_last c r with
      | Some p => Some (String d p)
      | None => if Ascii.eqb d c then Some EmptyString else None
      end
  end.

Definition match_section (value : string) : option string :=
  match value with
  | String "[" r =>
      match upto_last "]" r with
      | Some (String c h) => Some (String c h)
      | _ => None
      end
  | _ => None
  end.

(** The option pattern: the text before the first delimiter, without the
    spaces that precede the delimiter, and the text after it. *)
Definition is_delimiter (c : ascii) : bool := Ascii.eqb c "=" || Ascii.eqb c ":".

Fixpoint split_delimiter (s : string) : option (string * string) :=
  match s with
  | EmptyString => None
  | String c r =>
      if is_delimiter c then Some (EmptyString, r)
      else match split_delimiter r with
           | Some (a, b) => Some (String c a, b)
           | None => None
           end
  end.

Definition match_option (value : string) : option (string * string) :=
  match split_delimiter value with
  | Some (a, b) => Some (Py.rstrip a, Py.lstrip b)
  | None => None
  end.

(** [NONSPACECRE.search(line).start()], or 0 without a match. *)
Fixpoint first_nonspace (line : string) : option nat :=
  match line with
  | EmptyString => None
  | String c r =>
      if Py.isspace c then option_map S (first_nonspace r) else Some O
  end.

Definition indent_of (line : string) : nat :=
  match first_nonspace line with
  | Some n => n
  | None => O
  end.

Definition multiline : Type := list (string * list string).

(** The reader's variables: the dictionaries being filled (every value a
    list of lines until the end), [sectname] with [cursect] ([None] before
    the first header), [optname], [indent_level], [elements_added] and
    whether a parsing error [e] is pending. *)
Record rstate : Type := {
  r_defaults : multiline;
  r_sections : list (string * multiline);
  r_sectname : option string;
  r_optname : option string;
  r_indent : nat;
  r_added_sections : list string;
  r_added_options : list (string * string);
  r_error : bool
}.

Definition rstate0 : rstate :=
  {| r_defaults := []; r_sections := []; r_sectname := None; r_optname := None;
     r_indent := O; r_added_sections := []; r_added_options := [];
     r_error := false |}.

Definition cursect (st : rstate) (sectname : string) : multiline :=
  if String.eqb sectname default_section then r_defaults st
  else match assoc sectname (r_sections st) with
       | Some d => d
       | None => []
       end.

Definition set_cursect (st : rstate) (sectname : string) (d : multiline) : rstate :=
  if String.eqb sectname default_section then
    {| r_defaults := d; r_sections := r_sections st; r_sectname := r_sectname st;
       r_optname := r_optname st; r_indent := r_indent st;
       r_added_sections := r_added_sections st;
       r_added_options := r_added_options st; r_error := r_error st |}
  else
    {| r_defaults := r_defaults st;
       r_sections := assoc_set sectname d (r_sections st);
       r_sectname := r_sectname st;
       r_optname := r_optname st; r_indent := r_indent st;
       r_added_sections := r_added_sections st;
       r_added_options := r_added_options st; r_error := r_error st |}.

(** [cursect[optname].append(v)] *)
Definition append_value (st : rstate) (sectname optname v : string) : rstate :=
  let d := cursect st sectname in
  match assoc optname d with
  | Some vs => set_cursect st sectname (assoc_set optname (vs ++ [v]) d)
  | None => st
  end.

(** The option under continuation: [cursect is not None and optname]. *)
Definition open_option (st : rstate) : option (string * string) :=
  match r_sectname st, r_optname st with
  | Some sect, Some (String c o) => Some (sect, String c o)
  | _, _ => None
  end.

Definition is_comment (line : string) : bool :=
  let l := Py.strip line in
  Py.startswith "#" l || Py.startswith ";" l.

Definition pair_in (p : string * string) (l : list (string * string)) : bool :=
  existsb (fun q => String.eqb (fst p) (fst q) && String.eqb (snd p) (snd q)) l.

Definition with_error (st : rstate) : rstate :=
  {| r_defaults := r_defaults st; r_sections := r_sections st;
     r_sectname := r_sectname st; r_optname := r_optname st;
     r_indent := r_indent st; r_added_sections := r_added_sections st;
     r_added_options := r_added_options st; r_error := true |}.

(** A section header line. *)
Definition read_header (st : rstate) (indent : nat) (header : string) : result rstate :=
  if has_key header (r_sections st) then
    (* a section of this parser was added by this very read *)
    Raise (DuplicateSectionError header)
  else if String.eqb header default_section then
    Ok {| r_defaults := r_defaults st; r_sections := r_sections st;
          r_sectname := Some header; r_optname := None; r_indent := indent;
          r_added_sections := r_added_sections st;
          r_added_options := r_added_options st; r_error := r_error st |}
  else
    Ok {| r_defaults := r_defaults st;
          r_sections := r_sections st ++ [(header, [])];
          r_sectname := Some header; r_optname := None; r_indent := indent;
          r_added_sections := header :: r_added_sections st;
          r_added_options := r_added_options st; r_error := r_error st |}.

(** An option line of section [sectname]. *)
Definition read_option (st : rstate) (indent : nat) (sectname : string)
           (value : string) : result rstate :=
  match match_option value with
  | None =>
      Ok (with_error
            {| r_defaults := r_defaults st; r_sections := r_sections st;
               r_sectname := r_sectname st; r_optname := r_optname st;
               r_indent := indent; r_added_sections := r_added_sections st;
               r_added_options := r_added_options st; r_error := r_error st |})
  | Some (name, optval) =>
      let optname := optionxform (Py.rstrip name) in
      if pair_in (sectname, optname) (r_added_options st)
      then Raise (DuplicateOptionError sectname optname)
      else
        let st1 :=
          {| r_defaults := r_defaults st; r_sections := r_sections st;
             r_sectname := r_sectname st; r_optname := Some optname;
             r_indent := indent; r_added_sections := r_added_sections st;
             r_added_options := (sectname, optname) :: r_added_options st;
             r_error := r_error st || String.eqb name EmptyString |} in
        Ok (set_cursect st1 sectname
              (assoc_set optname [Py.strip optval] (cursect st1 sectname)))
  end.

(** One turn of the loop over the file's lines. *)
Definition read_line (st : rstate) (line : string) : result rstate :=
  if is_comment line then Ok st
  else
    let value := Py.strip line in
    if String.eqb value EmptyString then
      match open_option st with
      | Some (sect, opt) => Ok (append_value st sect opt EmptyString)
      | None => Ok st
      end
    else
      let cur_indent := indent_of line in
      match open_option st with
      | Some (sect, opt) =>
          if (r_indent st <? cur_indent)%nat
          then Ok (append_value st sect opt value)
          else
            match match_section value with
            | Some header => read_header st cur_indent header
            | None => read_option st cur_indent sect value
            end
      | None =>
          match match_section value with
          | Some header => read_header st cur_indent header
          | None =>
              match r_sectname st with
              | None => Raise MissingSectionHeaderError
              | Some sect => read_option st cur_indent sect value
              end
          end
      end.

Fixpoint read_lines (st : rstate) (lines : list string) : result rstate :=
  match lines with
  | [] => Ok st
  | l :: r =>
      match read_line st l with
      | Ok st' => read_lines st' r
      | Raise e => Raise e
      end
  end.

(** [_join_multiline_values] *)
Definition join_value (kv : string * list string) : string * string :=
  (fst kv, Py.rstrip (Py.join Py.nl (snd kv))).

Definition join_multiline_values (st : rstate) : t :=
  {| defaults := map join_value (r_defaults st);
     sections := map (fun s => (fst s, map join_value (snd s))) (r_sections st) |}.

Definition read (text : string) : result t :=
  match read_lines rstate0 (text_lines (universal_newlines text)) with
  | Raise e => Raise e
  | Ok st =>
      if r_error st then Raise ParsingError else Ok (join_multiline_values st)
  end.

End ConfigParser.

(* ================================================================== *)
(** ** The interpreter's state and the monad of the program *)

(** [subprocess.CompletedProcess] with its output decoded to text: the
    development starts from a command that was spawned and that ended; a
    shell that cannot be spawned and bytes that are not UTF-8 are outside. *)
Record CompletedProcess : Type := {
  stdout : string;
  stderr : string;
  returncode : Z
}.

(** [email.message.EmailMessage] as [send_email] fills it. *)
Record EmailMessage : Type := {
  msg_content : string;
  msg_To : string;
  msg_From : string;
  msg_Subject : string
}.

(** One SMTP session as [send_email] runs it: connect (with or without
    SSL), login, send one message, quit. *)
Record SmtpSession : Type := {
  smtp_ssl : bool;
  smtp_hostname : string;
  smtp_port : Z;
  smtp_user : string;
  smtp_password : string;
  smtp_message : EmailMessage
}.

(** One call of [send_email]: [to], [_from], [subject], [body]. *)
Record EmailCall : Type := {
  call_to : string;
  call_from : string;
  call_subject : string;
  call_body : string
}.

(** What the program can change: the global [CONFIG] ([None] until
    [__main__] assigns it), the file at [CONFIG_FILE_PATH] ([None] when it
    does not exist), the text printed (one entry per [print]), the calls
    of [send_email] so far and the sessions the mail relay completed. *)
Record World : Type := {
  CONFIG : option ConfigParser.t;
  config_file : option string;
  console : list string;
  send_email_calls : list EmailCall;
  outbox : list SmtpSession
}.

Definition M (A : Type) : Type := World -> result A * World.

Definition ret {A} (a : A) : M A := fun w => (Ok a, w).
Definition raise {A} (e : exn) : M A := fun w => (Raise e, w).
Definition bind {A B} (m : M A) (k : A -> M B) : M B :=
  fun w =>
    match m w with
    | (Ok a, w') => k a w'
    | (Raise e, w') => (Raise e, w')
    end.
Definition lift {A} (r : result A) : M A := fun w => (r, w).

Notation "x <- m ;; k" := (bind m (fun x => k))
  (at level 61, m at next level, right associativity).
Notation "m ;; k" := (bind m (fun _ => k))
  (at level 61, right associativity).

Fixpoint mapM {A B} (f : A -> M B) (xs : list A) : M (list B) :=
  match xs with
  | [] => ret []
  | x :: r => y <- f x ;; ys <- mapM f r ;; ret (y :: ys)
  end.

(** [print(text)] *)
Definition print (text : string) : M unit :=
  fun w =>
    (Ok tt, {| CONFIG := CONFIG w; config_file := config_file w;
               console := console w ++ [text];
               send_email_calls := send_email_calls w; outbox := outbox w |}).

(** [CONFIG[section][key]] *)
Definition config_get (section key : string) : M string :=
  fun w =>
    match CONFIG w with
    | None => (Raise TypeError, w)
    | Some cfg => (ConfigParser.getitem cfg section key, w)
    end.

(** [CONFIG = value] and [CONFIG[section] = {...}] *)
Definition config_assign (cfg : ConfigParser.t) : M unit :=
  fun w =>
    (Ok tt, {| CONFIG := Some cfg; config_file := config_file w;
               console := console w;
               send_email_calls := send_email_calls w; outbox := outbox w |}).

Definition config_setitem (section : string) (items : ConfigParser.options) : M unit :=
  fun w =>
    match CONFIG w with
    | None => (Raise TypeError, w)
    | Some cfg =>
        match ConfigParser.setitem cfg section items with
        | Ok cfg' => config_assign cfg' w
        | Raise e => (Raise e, w)
        end
    end.

(** Entering [send_email]: the call is recorded. *)
Definition record_call (c : EmailCall) : M unit :=
  fun w =>
    (Ok tt, {| CONFIG := CONFIG w; config_file := config_file w;
               console := console w;
               send_email_calls := send_email_calls w ++ [c];
               outbox := outbox w |}).

Definition deliver (s : SmtpSession) : M unit :=
  fun w =>
    (Ok tt, {| CONFIG := CONFIG w; config_file := config_file w;
               console := console w;
               send_email_calls := send_email_calls w;
               outbox := outbox w ++ [s] |}).

(* ================================================================== *)
(** ** The program *)

Definition CONFIG_FILE_PATH : string := "/opt/gpu-checker/secretfile.txt".

Definition str_to_bool (string : string) : Py.value :=
  if Py.str_in (Py.lower string) ["true"; "1"; "t"; "y"; "yes"] then Py.BoolV true
  else if Py.str_in (Py.lower string) ["false"; "0"; "f"; "n"; "no"] then Py.BoolV false
  else Py.NoneV.

(** The arguments arrive already converted by [str]. *)
Definition multiline_str (argv : list string) : string :=
  let string :=
    fold_left (fun string arg => string +++ arg +++ Py.nl) argv EmptyString in
  Py.drop_last string.

Definition purge_element (_list : list string) (elem_to_purge : string) : list string :=
  filter (fun elem => negb (String.eqb elem elem_to_purge)) _list.

(** The attributes of a [ShellRunner] once [run_shell_command] is done. *)
Record ShellRunner : Type := {
  shell_output : string;
  shell_error : string;
  exit_code : Z;
  success : bool;
  command_report : string
}.

Section Program.

(** The machine outside the interpreter: what a shell command answers,
    whether the mail relay completes a session ([None]) or refuses it
    with an exception, and whether the [email] package's parser of the
    header [name] accepts a one-line value ([None]) or raises on it. *)
Variable subprocess_run : string -> CompletedProcess.
Variable smtp_relay : SmtpSession -> option exn.
Variable header_factory : string -> string -> option exn.

Definition run_shell_command (command : string) : ShellRunner :=
  let process := subprocess_run command in
  let shell_output := stdout process in
  let shell_error := stderr process in
  let exit_code := returncode process in
  let success := Z.eqb exit_code 0 in
  {| shell_output := shell_output;
     shell_error := shell_error;
     exit_code := exit_code;
     success := success;
     command_report :=
       multiline_str
         [ "command:";
           command;
           "command success: " +++ Py.str_of_bool success;
           EmptyString;
           "stdout:";
           shell_output;
           EmptyString;
           "stderr:";
           shell_error;
           EmptyString;
           "exit code:";
           Py.str_of_int exit_code ] |}.

(** [msg[name] = value], that is the policy's [header_store_parse]: a
    value of more than one line raises [ValueError]; a one-line value goes
    to the parser of that header. *)
Definition header_store_parse (name value : string) : result string :=
  if (1 <? List.length (Py.splitlines value))%nat then Raise ValueError
  else match header_factory name value with
       | Some e => Raise e
       | None => Ok value
       end.

Definition send_email (to _from subject body : string) : M unit :=
  record_call {| call_to := to; call_from := _from;
                 call_subject := subject; call_body := body |} ;;
  signature <- config_get "email" "signature" ;;
  let body := multiline_str [body; signature] in
  print (Py.join Py.nl
           [ "sending email:___________________________________";
             "to: " +++ to;
             "from: " +++ _from;
             "subject: " +++ subject;
             "body:";
             body ]) ;;
  (* [msg.set_content(body)] stores the text under fixed headers *)
  msg_to <- lift (header_store_parse "To" to) ;;
  msg_from <- lift (header_store_parse "From" _from) ;;
  msg_subject <- lift (header_store_parse "Subject" subject) ;;
  let msg := {| msg_content := body; msg_To := msg_to; msg_From := msg_from;
                msg_Subject := msg_subject |} in
  hostname <- config_get "smtp_auth" "hostname" ;;
  port_text <- config_get "smtp_auth" "port" ;;
  port <- lift (Py.int port_text) ;;
  user <- config_get "smtp_auth" "user" ;;
  password <- config_get "smtp_auth" "password" ;;
  is_ssl_text <- config_get "smtp_auth" "is_ssl" ;;
  let is_ssl := str_to_bool is_ssl_text in
  let s := {| smtp_ssl := Py.truthy is_ssl; smtp_hostname := hostname;
              smtp_port := port; smtp_user := user;
              smtp_password := password; smtp_message := msg |} in
  match smtp_relay s with
  | Some e => raise e
  | None =>
      deliver s ;;
      print "email sent successfully!____________________________________________________"
  end.

Definition find_slurm_nodes (states partitions : string) : M (list string) :=
  let command :=
    "sinfo --states=" +++ states +++ " --partition=" +++ partitions
      +++ " -N --noheader" in
  let command_results := run_shell_command command in
  let success := success command_results in
  let shell_output := shell_output command_results in
  let command_report := command_report command_results in
  if negb success then raise (Exception command_report)
  else
    let shell_output_lines :=
      map (Py.replace Py.LF EmptyString) (Py.split Py.LF shell_output) in
    let shell_output_lines := purge_element shell_output_lines EmptyString in
    nodes <- mapM (fun line => lift (Py.index_first (Py.split Py.SP line)))
                  shell_output_lines ;;
    (if Nat.eqb (List.length nodes) 0
     then print ("no nodes found! " +++ command)
     else ret tt) ;;
    ret nodes.

(** No [return] statement: the call evaluates to [None]. *)
Definition drain_node (node reason : string) (do_send_email : Py.value) : M Py.value :=
  let command_results :=
    run_shell_command
      ("scontrol update nodename=" +++ node +++ " state=drain reason=" +++ Py.dquote
         +++ reason +++ Py.dquote) in
  let success := success command_results in
  let command_report := command_report command_results in
  (if Py.truthy do_send_email then
     email_to <- config_get "email" "to" ;;
     email_from <- config_get "email" "from" ;;
     if success then
       send_email email_to email_from
                  ("gpu-checker has drained node " +++ node)
                  command_report
     else
       send_email email_to email_from
                  ("ACTION REQUIRED: gpu-checker wanted to drain node "
                     +++ node +++ ", but failed")
                  command_report
   else ret tt) ;;
  ret Py.NoneV.

Definition check_gpu (node : string) (do_send_email : Py.value) : M bool :=
  ssh_user <- config_get "ssh" "user" ;;
  ssh_privkey <- config_get "ssh" "keyfile" ;;
  let command :=
    "ssh " +++ ssh_user +++ "@" +++ node
      +++ " -o " +++ Py.dquote +++ "StrictHostKeyChecking=no" +++ Py.dquote
      +++ " -i " +++ ssh_privkey
      +++ " nvidia-smi && echo $? || echo $?" in
  let command_results := run_shell_command command in
  let shell_output := shell_output command_results in
  let command_report := command_report command_results in
  let shell_output_lines :=
    map (Py.replace Py.LF EmptyString) (Py.split Py.LF shell_output) in
  let shell_output_lines := purge_element shell_output_lines EmptyString in
  ssh_exit_code <- lift (Py.index_last shell_output_lines) ;;
  success <- (if success command_results
              then n <- lift (Py.int ssh_exit_code) ;; ret (Z.eqb n 0)
              else ret false) ;;
  (if negb success && Py.truthy do_send_email then
     email_to <- config_get "email" "to" ;;
     email_from <- config_get "email" "from" ;;
     send_email email_to email_from
                ("gpu-checker has detected an error on node " +++ node)
                command_report
   else ret tt) ;;
  (if success then print ("gpu works on node " +++ node) else ret tt) ;;
  ret success.

(** [CONFIG.read(CONFIG_FILE_PATH)], called on the parser just created:
    a file that cannot be opened is skipped. *)
Definition config_read : M unit :=
  fun w =>
    match config_file w with
    | None => (Ok tt, w)
    | Some text =>
        match ConfigParser.read text with
        | Ok cfg => config_assign cfg w
        | Raise e => (Raise e, w)
        end
    end.

(** [with open(CONFIG_FILE_PATH, 'w') as config_file: CONFIG.write(config_file)]
    (the directory is taken to exist and to be writable). *)
Definition config_write : M unit :=
  fun w =>
    match CONFIG w with
    | None => (Raise TypeError, w)
    | Some cfg =>
        (Ok tt, {| CONFIG := CONFIG w;
                   config_file := Some (ConfigParser.write cfg);
                   console := console w;
                   send_email_calls := send_email_calls w;
                   outbox := outbox w |})
    end.

(** [os.path.isfile(CONFIG_FILE_PATH)] *)
Definition isfile : M bool :=
  fun w =>
    (Ok (match config_file w with Some _ => true | None => false end), w).

(** [__main__] up to the loop: the configuration is read, or the default
    one is built and written; then [states], [partitions] and
    [do_send_email] are taken from it. *)
Definition main_startup : M (string * string * Py.value) :=
  config_assign ConfigParser.empty ;;
  present <- isfile ;;
  (if present then config_read
   else
     config_setitem "nodes"
       [ ("states_to_check", "mixed,idle");
         ("partitions_to_check", "gpu") ] ;;
     config_setitem "ssh"
       [ ("user", EmptyString);
         ("keyfile", EmptyString) ] ;;
     config_setitem "email"
       [ ("enabled", "False");
         ("to", EmptyString);
         ("from", EmptyString);
         ("signature", EmptyString) ] ;;
     config_setitem "smtp_auth"
       [ ("hostname", EmptyString);
         ("port", EmptyString);
         ("user", EmptyString);
         ("password", EmptyString);
         ("is_ssl", "False") ] ;;
     config_write) ;;
  states <- config_get "nodes" "states_to_check" ;;
  partitions <- config_get "nodes" "partitions_to_check" ;;
  enabled <- config_get "email" "enabled" ;;
  ret (states, partitions, str_to_bool enabled).

(** The body of the [for] loop for one node ([time.sleep] changes nothing
    that is observed here). *)
Definition main_loop_body (node : string) (do_send_email : Py.value) : M unit :=
  gpu_works <- check_gpu node do_send_email ;;
  if negb gpu_works
  then drain_node node "nvidia-smi failure" do_send_email ;; ret tt
  else ret tt.

(** One pass of the [for] loop inside [while True]: the nodes found are
    handled in turn; nothing catches what the calls raise. *)
Definition main_cycle (states partitions : string) (do_send_email : Py.value) : M unit :=
  nodes <- find_slurm_nodes states partitions ;;
  mapM (fun node => main_loop_body node do_send_email) nodes ;;
  ret tt.

End Program.

(* ================================================================== *)
(** ** The specification's reading of node discovery

    The specification speaks of non-blank lines and of the first
    whitespace-delimited token of a line; these definitions follow its
    words, to be compared with what [find_slurm_nodes] computes. *)

Fixpoint is_blank (line : string) : bool :=
  match line with
  | EmptyString => true
  | String c r => Py.isspace c && is_blank r
  end.

Fixpoint take_token (s : string) : string :=
  match s with
  | EmptyString => EmptyString
  | String c r => if Py.isspace c then EmptyString else String c (take_token r)
  end.

Definition first_token (line : string) : string := take_token (Py.lstrip line).

Definition non_blank_lines (output : string) : list string :=
  filter (fun l => negb (is_blank l)) (Py.split Py.LF output).

Definition spec_find_nodes (output : string) : list string :=
  map first_token (non_blank_lines output).

(** A line of well-formed scheduler output: empty, or a node name at the
    very start of the line, followed by nothing or by a space. *)
Fixpoint name_ends_with_space (line : string) : bool :=
  match line with
  | EmptyString => true
  | String c r => if Py.isspace c then Ascii.eqb c Py.SP else name_ends_with_space r
  end.

Definition well_formed_line (line : string) : bool :=
  match line with
  | EmptyString => true
  | String c _ => negb (Py.isspace c) && name_ends_with_space line
  end.

Definition well_formed_output (output : string) : bool :=
  forallb well_formed_line (Py.split Py.LF output).

(** What one kept line contributes to the result: [line.split(' ')[0]]. *)
Definition first_field (line : string) : string :=
  match Py.split Py.SP line with
  | [] => EmptyString
  | f :: _ => f
  end.

(* ================================================================== *)
(** ** Sample surroundings, for running the program on *)

Definition sample_config : ConfigParser.t :=
  {| ConfigParser.defaults := [];
     ConfigParser.sections :=
       [ ("nodes", [ ("states_to_check", "mixed,idle");
                     ("partitions_to_check", "gpu") ]);
         ("ssh", [ ("user", "monitor"); ("keyfile", "/etc/gpu-checker/id") ]);
         ("email", [ ("enabled", "True"); ("to", "ops@example.org");
                     ("from", "gpu-checker@example.org");
                     ("signature", "-- gpu-checker") ]);
         ("smtp_auth", [ ("hostname", "localhost"); ("port", "25");
                         ("user", "mailer"); ("password", "secret");
                         ("is_ssl", "False") ]) ] |}.

Definition world0 : World :=
  {| CONFIG := None; config_file := None; console := [];
     send_email_calls := []; outbox := [] |}.

Definition sample_world : World :=
  {| CONFIG := Some sample_config; config_file := None; console := [];
     send_email_calls := []; outbox := [] |}.

(** A shell that answers every command with the same output and status. *)
Definition shell_answers (out : string) (status : Z) : string -> CompletedProcess :=
  fun _ => {| stdout := out; stderr := EmptyString; returncode := status |}.

(** A header parser that accepts every one-line value. *)
Definition headers_accepted : string -> string -> option exn := fun _ _ => None.

Definition relay_accepts : SmtpSession -> option exn := fun _ => None.
Definition relay_refuses : SmtpSession -> option exn := fun _ => Some SMTPException.

(** The command [find_slurm_nodes] builds, the lines it keeps and the
    names it draws from them, named for the statements below. *)
Definition sinfo_command (states partitions : string) : string :=
  "sinfo --states=" +++ states +++ " --partition=" +++ partitions
    +++ " -N --noheader".

Definition kept_lines (output : string) : list string :=
  purge_element (Py.split Py.LF output) EmptyString.

Definition node_names (output : string) : list string :=
  map first_field (kept_lines output).

(** [print] seen from outside. *)
Definition printed (text : string) (w : World) : World :=
  {| CONFIG := CONFIG w; config_file := config_file w;
     console := console w ++ [text];
     send_email_calls := send_email_calls w; outbox := outbox w |}.

(** The commands [check_gpu] and [drain_node] build. *)
Definition ssh_command (ssh_user node ssh_privkey : string) : string :=
  "ssh " +++ ssh_user +++ "@" +++ node
    +++ " -o " +++ Py.dquote +++ "StrictHostKeyChecking=no" +++ Py.dquote
    +++ " -i " +++ ssh_privkey
    +++ " nvidia-smi && echo $? || echo $?".

Definition scontrol_command (node reason : string) : string :=
  "scontrol update nodename=" +++ node +++ " state=drain reason=" +++ Py.dquote
    +++ reason +++ Py.dquote.

(** The configuration [__main__] builds when there is no file. *)
Definition default_config : ConfigParser.t :=
  {| ConfigParser.defaults := [];
     ConfigParser.sections :=
       [ ("nodes", [ ("states_to_check", "mixed,idle");
                     ("partitions_to_check", "gpu") ]);
         ("ssh", [ ("user", EmptyString); ("keyfile", EmptyString) ]);
         ("email", [ ("enabled", "False"); ("to", EmptyString);
                     ("from", EmptyString); ("signature", EmptyString) ]);
         ("smtp_auth", [ ("hostname", EmptyString); ("port", EmptyString);
                         ("user", EmptyString); ("password", EmptyString);
                         ("is_ssl", "False") ]) ] |}.

(** The world a new run of the program starts in: only the file stays. *)
Definition restart (w : World) : World :=
  {| CONFIG := None; config_file := config_file w; console := [];
     send_email_calls := []; outbox := [] |}.

(** What the shell answers to the probe of [node]. *)
Definition probe (subprocess_run : string -> CompletedProcess)
           (ssh_user node ssh_privkey : string) : CompletedProcess :=
  subprocess_run (ssh_command ssh_user node ssh_privkey).

(** The subject [drain_node] gives its notification. *)
Definition drain_subject (node : string) (accepted : bool) : string :=
  if accepted then "gpu-checker has drained node " +++ node
  else "ACTION REQUIRED: gpu-checker wanted to drain node " +++ node
         +++ ", but failed".

(** A configuration file whose [enabled] is no recognised boolean. *)
Definition file_with_enabled (text : string) : string :=
  "[nodes]" +++ Py.nl +++
  "states_to_check = mixed,idle" +++ Py.nl +++
  "partitions_to_check = gpu" +++ Py.nl +++
  "[email]" +++ Py.nl +++
  "enabled = " +++ text +++ Py.nl.

Definition recognised_true : list string := ["true"; "1"; "t"; "y"; "yes"].
Definition recognised_false : list string := ["false"; "0"; "f"; "n"; "no"].

(** Outputs of the scheduler query and of the probe, to run the program on. *)
Definition sample_listing : string :=
  "gpu01 idle* ..." +++ Py.nl +++ "gpu02 mixed ..." +++ Py.nl.

Definition listing_with_blank_line : string :=
  "gpu01 idle" +++ Py.nl +++ " " +++ Py.nl +++ "gpu02 mixed" +++ Py.nl.

Definition listing_with_empty_line : string :=
  "gpu01 idle" +++ Py.nl +++ Py.nl +++ "gpu02 mixed" +++ Py.nl.

Definition probe_output_without_status : string :=
  "NVIDIA-SMI has failed" +++ Py.nl.

Definition healthy_probe_output : string :=
  "GPU 0: ok" +++ Py.nl +++ "0" +++ Py.nl.

(** An output made of line feeds only. *)
Fixpoint only_newlines (output : string) : bool :=
  match output with
  | EmptyString => true
  | String c r => Ascii.eqb c Py.LF && only_newlines r
  end.

(** [w'] comes after [w] in a run of the monitor: the configuration and
    its file are the same, and the printed text, the recorded calls of
    [send_email] and the completed sessions have only grown. *)
Definition grows (w w' : World) : Prop :=
  CONFIG w' = CONFIG w
  /\ config_file w' = config_file w
  /\ exists texts calls sessions,
       console w' = console w ++ texts
       /\ send_email_calls w' = send_email_calls w ++ calls
       /\ outbox w' = outbox w ++ sessions.

Definition steady {A} (m : M A) : Prop := forall w, grows w (snd (m w)).

(** The verdict [check_gpu] draws from the answer of the shell (lines 153
    to 157), apart from what it does with it. *)
Definition probe_verdict (p : CompletedProcess) : result bool :=
  match Py.index_last (kept_lines (stdout p)) with
  | Raise e => Raise e
  | Ok ssh_exit_code =>
      if Z.eqb (returncode p) 0 then
        match Py.int ssh_exit_code with
        | Ok n => Ok (Z.eqb n 0)
        | Raise e => Raise e
        end
      else Ok false
  end.

(** The texts [send_email] reads from the configuration, and what it
    makes of them. *)
Record MailSettings : Type := {
  set_signature : string;
  set_hostname : string;
  set_port : string;
  set_user : string;
  set_password : string;
  set_is_ssl : string
}.

Definition mail_settings_of (cfg : ConfigParser.t) (m : MailSettings) : Prop :=
  ConfigParser.getitem cfg "email" "signature" = Ok (set_signature m)
  /\ ConfigParser.getitem cfg "smtp_auth" "hostname" = Ok (set_hostname m)
  /\ ConfigParser.getitem cfg "smtp_auth" "port" = Ok (set_port m)
  /\ ConfigParser.getitem cfg "smtp_auth" "user" = Ok (set_user m)
  /\ ConfigParser.getitem cfg "smtp_auth" "password" = Ok (set_password m)
  /\ ConfigParser.getitem cfg "smtp_auth" "is_ssl" = Ok (set_is_ssl m).

Definition email_call (to _from subject body : string) : EmailCall :=
  {| call_to := to; call_from := _from; call_subject := subject;
     call_body := body |}.

Definition email_banner (m : MailSettings) (to _from subject body : string) : string :=
  Py.join Py.nl
    [ "sending email:___________________________________";
      "to: " +++ to;
      "from: " +++ _from;
      "subject: " +++ subject;
      "body:";
      multiline_str [body; set_signature m] ].

Definition email_done : string :=
  "email sent successfully!____________________________________________________".

Definition email_session (m : MailSettings) (port : Z)
           (to _from subject body : string) : SmtpSession :=
  {| smtp_ssl := Py.truthy (str_to_bool (set_is_ssl m));
     smtp_hostname := set_hostname m;
     smtp_port := port;
     smtp_user := set_user m;
     smtp_password := set_password m;
     smtp_message :=
       {| msg_content := multiline_str [body; set_signature m];
          msg_To := to; msg_From := _from; msg_Subject := subject |} |}.

(** The world after more text, calls and sessions. *)
Definition extended (w : World) (texts : list string) (calls : list EmailCall)
           (sessions : list SmtpSession) : World :=
  {| CONFIG := CONFIG w; config_file := config_file w;
     console := console w ++ texts;
     send_email_calls := send_email_calls w ++ calls;
     outbox := outbox w ++ sessions |}.

Definition sample_mail_settings : MailSettings :=
  {| set_signature := "-- gpu-checker"; set_hostname := "localhost";
     set_port := "25"; set_user := "mailer"; set_password := "secret";
     set_is_ssl := "False" |}.

Definition failed_probe_output : string :=
  "Unable to determine the device handle" +++ Py.nl +++ "9" +++ Py.nl.

(** A computation that sends nothing: the calls of [send_email] and the
    completed sessions are as before. *)
Definition quiet {A} (m : M A) : Prop :=
  forall w,
    send_email_calls (snd (m w)) = send_email_calls w
    /\ outbox (snd (m w)) = outbox w.

(** The subject of the notification of a failed probe. *)
Definition error_subject (node : string) : string :=
  "gpu-checker has detected an error on node " +++ node.

(** A node name as the scheduler prints it: not empty, no space, no
    line feed. *)
Definition plain_name (name : string) : bool :=
  negb (String.eqb name EmptyString)
  && negb (Py.contains Py.SP name) && negb (Py.contains Py.LF name).



(** A configuration without the [signature] key. *)
Definition config_without_signature : ConfigParser.t :=
  {| ConfigParser.defaults := [];
     ConfigParser.sections :=
       [ ("email", [ ("enabled", "True"); ("to", "ops@example.org");
                     ("from", "gpu-checker@example.org") ]) ] |}.

Definition world_without_signature : World :=
  {| CONFIG := Some config_without_signature; config_file := None;
     console := []; send_email_calls := []; outbox := [] |}.

(** The report [run_shell_command] makes of a command and of what the
    shell answered to it. *)
Definition shell_report (command : string) (p : CompletedProcess) : string :=
  Py.join Py.nl
    [ "command:";
      command;
      "command success: " +++ Py.str_of_bool (Z.eqb (returncode p) 0);
      EmptyString;
      "stdout:";
      stdout p;
      EmptyString;
      "stderr:";
      stderr p;
      EmptyString;
      "exit code:";
      Py.str_of_int (returncode p) ].

(** The assignment [msg[name] = value] goes through. *)
Definition header_accepted (header_factory : string -> string -> option exn)
           (name value : string) : Prop :=
  header_store_parse header_factory name value = Ok value.

(* ================================================================== *)
(** ** Properties of the built-ins *)

Lemma split_not_nil (sep : ascii) (s : string) : Py.split sep s <> [].
Proof.
  destruct s as [|c r]; cbn; [discriminate|].
  destruct (Ascii.eqb c sep); [discriminate|].
  destruct (Py.split sep r); discriminate.
Qed.

Lemma split_no_sep (sep : ascii) (s l : string) :
  In l (Py.split sep s) -> Py.contains sep l = false.
Proof.
  revert l; induction s as [|c r IH]; intros l; cbn.
  - intros [<-|[]]; reflexivity.
  - destruct (Ascii.eqb c sep) eqn:E.
    + intros [<-|H]; [reflexivity|auto].
    + destruct (Py.split sep r) as [|h t] eqn:S.
      * intros [<-|[]]; cbn; now rewrite E.
      * intros [<-|H].
        -- cbn; rewrite E; cbn. apply IH; now left.
        -- apply IH; now right.
Qed.

Lemma replace_absent (c : ascii) (new s : string) :
  Py.contains c s = false -> Py.replace c new s = s.
Proof.
  induction s as [|d r IH]; cbn; [reflexivity|].
  destruct (Ascii.eqb d c); cbn; [discriminate|].
  intros H; now rewrite IH.
Qed.

Lemma strip_newlines_split (s : string) :
  map (Py.replace Py.LF EmptyString) (Py.split Py.LF s) = Py.split Py.LF s.
Proof.
  rewrite <- (map_id (Py.split Py.LF s)) at 2.
  apply map_ext_in; intros l Hl.
  apply replace_absent, (split_no_sep _ s), Hl.
Qed.

Lemma purge_element_spec (ls : list string) (e x : string) :
  In x (purge_element ls e) <-> In x ls /\ x <> e.
Proof.
  unfold purge_element; rewrite filter_In.
  destruct (String.eqb_spec x e); cbn; intuition congruence.
Qed.

Lemma purge_element_app (l1 l2 : list string) (e : string) :
  purge_element (l1 ++ l2) e = purge_element l1 e ++ purge_element l2 e.
Proof. unfold purge_element; apply filter_app. Qed.

(* ================================================================== *)
(** ** Properties of the monad *)

(** Case analysis on every intermediate outcome of a run. *)
Ltac split_run :=
  repeat match goal with
         | |- context [match ?x with _ => _ end] => destruct x; cbn [fst snd]
         end.

Lemma mapM_first_field (ls : list string) (w : World) :
  mapM (fun line => lift (Py.index_first (Py.split Py.SP line))) ls w
  = (Ok (map first_field ls), w).
Proof.
  induction ls as [|l r IH]; [reflexivity|].
  cbn [mapM map]; unfold bind at 1, lift at 1, first_field at 1.
  destruct (Py.split Py.SP l) as [|f t] eqn:S.
  - now apply split_not_nil in S.
  - cbn [Py.index_first]; unfold bind at 1; rewrite IH; reflexivity.
Qed.

(** [multiline_str] is a join. *)
Lemma append_assoc (a b c : string) : (a +++ b) +++ c = a +++ b +++ c.
Proof. induction a as [|x a IH]; cbn; [reflexivity|now rewrite IH]. Qed.

Lemma append_empty_r (a : string) : a +++ EmptyString = a.
Proof. induction a as [|x a IH]; cbn; [reflexivity|now rewrite IH]. Qed.

Lemma drop_last_append_char (s : string) (c : ascii) :
  Py.drop_last (s +++ String c EmptyString) = s.
Proof.
  induction s as [|d r IH]; [reflexivity|].
  cbn [String.append]. destruct r as [|e r']; [reflexivity|].
  cbn [Py.drop_last String.append] in *. now rewrite IH.
Qed.

Lemma multiline_fold_join (a : string) (r : list string) (acc : string) :
  fold_left (fun string arg => string +++ arg +++ Py.nl) (a :: r) acc
  = acc +++ Py.join Py.nl (a :: r) +++ Py.nl.
Proof.
  revert a acc; induction r as [|b r IH]; intros a acc.
  - reflexivity.
  - transitivity
      (fold_left (fun string arg => string +++ arg +++ Py.nl) (b :: r)
                 (acc +++ a +++ Py.nl)); [reflexivity|].
    rewrite IH. unfold Py.join. cbn [String.concat].
    now rewrite !append_assoc.
Qed.

Lemma multiline_str_join (argv : list string) :
  multiline_str argv = Py.join Py.nl argv.
Proof.
  destruct argv as [|a r]; [reflexivity|].
  unfold multiline_str. rewrite multiline_fold_join.
  apply drop_last_append_char.
Qed.

Lemma run_shell_command_report (subprocess_run : string -> CompletedProcess)
      (command : string) :
  command_report (run_shell_command subprocess_run command)
  = shell_report command (subprocess_run command).
Proof. unfold run_shell_command, shell_report. apply multiline_str_join. Qed.

(* ================================================================== *)
(** ** Node discovery *)

Section Discovery.

Variable subprocess_run : string -> CompletedProcess.


(** A failed query raises [Exception] with the report and changes nothing. *)
Lemma find_slurm_nodes_failure (states partitions : string) (w : World) :
  returncode (subprocess_run (sinfo_command states partitions)) <> 0%Z ->
  find_slurm_nodes subprocess_run states partitions w
  = (Raise (Exception
              (command_report
                 (run_shell_command subprocess_run
                    (sinfo_command states partitions)))), w).
Proof.
  intros H. unfold find_slurm_nodes.
  fold (sinfo_command states partitions).
  cbn [success shell_output command_report run_shell_command].
  destruct (Z.eqb_spec (returncode (subprocess_run (sinfo_command states partitions))) 0); [contradiction|].
  reflexivity.
Qed.

(** A query that succeeded returns one name per kept line. *)
Lemma find_slurm_nodes_success (states partitions : string) (w : World) :
  returncode (subprocess_run (sinfo_command states partitions)) = 0%Z ->
  find_slurm_nodes subprocess_run states partitions w
  = (Ok (node_names (stdout (subprocess_run (sinfo_command states partitions)))),
     match node_names (stdout (subprocess_run (sinfo_command states partitions))) with
     | [] => printed ("no nodes found! " +++ sinfo_command states partitions) w
     | _ :: _ => w
     end).
Proof.
  intros H. unfold find_slurm_nodes.
  fold (sinfo_command states partitions).
  cbn [success shell_output command_report run_shell_command].
  rewrite H; cbn [Z.eqb negb].
  rewrite strip_newlines_split.
  unfold bind at 1. rewrite mapM_first_field.
  fold (kept_lines (stdout (subprocess_run (sinfo_command states partitions)))).
  fold (node_names (stdout (subprocess_run (sinfo_command states partitions)))).
  destruct (node_names (stdout (subprocess_run (sinfo_command states partitions)))); reflexivity.
Qed.

(** *** Lines of well-formed output *)

Lemma isspace_SP (c : ascii) : Ascii.eqb c Py.SP = true -> Py.isspace c = true.
Proof. intros H; apply Ascii.eqb_eq in H; subst; reflexivity. Qed.

Lemma first_field_cons_space (r : string) : first_field (String Py.SP r) = EmptyString.
Proof. reflexivity. Qed.

Lemma first_field_cons_other (c : ascii) (r : string) :
  Ascii.eqb c Py.SP = false -> first_field (String c r) = String c (first_field r).
Proof.
  intros H; unfold first_field; cbn [Py.split]; rewrite H.
  destruct (Py.split Py.SP r) eqn:S; [now apply split_not_nil in S|reflexivity].
Qed.

Lemma first_field_take_token (l : string) :
  name_ends_with_space l = true -> first_field l = take_token l.
Proof.
  induction l as [|c r IH]; [reflexivity|]; cbn [name_ends_with_space take_token].
  destruct (Py.isspace c) eqn:Sp.
  - intros H; apply Ascii.eqb_eq in H; subst c; reflexivity.
  - intros H. rewrite first_field_cons_other.
    + now rewrite IH.
    + destruct (Ascii.eqb c Py.SP) eqn:E; [|reflexivity].
      apply isspace_SP in E; congruence.
Qed.

Lemma well_formed_first_token (l : string) :
  well_formed_line l = true -> first_field l = first_token l.
Proof.
  destruct l as [|c r]; [reflexivity|].
  unfold well_formed_line, first_token; intros H.
  apply andb_true_iff in H as [Hc Hn]; apply negb_true_iff in Hc.
  cbn [Py.lstrip]; rewrite Hc. now apply first_field_take_token.
Qed.

Lemma well_formed_blank (l : string) :
  well_formed_line l = true -> is_blank l = String.eqb l EmptyString.
Proof.
  destruct l as [|c r]; [reflexivity|].
  unfold well_formed_line; intros H.
  apply andb_true_iff in H as [Hc _]; apply negb_true_iff in Hc.
  cbn; now rewrite Hc.
Qed.

Lemma well_formed_names (ls : list string) :
  forallb well_formed_line ls = true ->
  map first_field (purge_element ls EmptyString)
  = map first_token (filter (fun l => negb (is_blank l)) ls).
Proof.
  induction ls as [|l r IH]; [reflexivity|]; cbn [forallb purge_element filter].
  intros H; apply andb_true_iff in H as [Hl Hr].
  rewrite (well_formed_blank l Hl).
  destruct (String.eqb l EmptyString); cbn [negb map].
  - now apply IH.
  - f_equal; [now apply well_formed_first_token|now apply IH].
Qed.

(** C3.  When the scheduler query succeeds and every line of its output
    is well formed (empty, or a node name at the start of the line followed
    by nothing or by a space), [find_slurm_nodes] returns the names the
    specification asks for: as many as there are non-blank lines, the i-th
    one being the first whitespace-delimited token of the i-th non-blank
    line. *)
Theorem find_slurm_nodes_well_formed (states partitions : string) (w : World) :
  returncode (subprocess_run (sinfo_command states partitions)) = 0%Z ->
  well_formed_output (stdout (subprocess_run (sinfo_command states partitions))) = true ->
  let output := stdout (subprocess_run (sinfo_command states partitions)) in
  fst (find_slurm_nodes subprocess_run states partitions w)
  = Ok (spec_find_nodes output)
  /\ List.length (spec_find_nodes output) = List.length (non_blank_lines output)
  /\ forall i line,
       nth_error (non_blank_lines output) i = Some line ->
       nth_error (spec_find_nodes output) i = Some (first_token line).
Proof.
  intros Hrc Hwf output. split; [|split].
  - rewrite find_slurm_nodes_success by assumption. cbn [fst]. f_equal.
    now apply well_formed_names.
  - apply length_map.
  - intros i line H. unfold spec_find_nodes. now rewrite nth_error_map, H.
Qed.

(** *** Empty lines *)

Lemma split_app_sep (sep : ascii) (a b : string) :
  Py.split sep (a +++ String sep b) = Py.split sep a ++ Py.split sep b.
Proof.
  induction a as [|c r IH]; cbn [String.append Py.split].
  - now rewrite Ascii.eqb_refl.
  - rewrite IH. destruct (Ascii.eqb c sep); [reflexivity|].
    destruct (Py.split sep r) eqn:S; [now apply split_not_nil in S|reflexivity].
Qed.

Lemma kept_lines_app (a b : string) :
  kept_lines (a +++ String Py.LF b) = kept_lines a ++ kept_lines b.
Proof. unfold kept_lines. now rewrite split_app_sep, purge_element_app. Qed.

Lemma kept_lines_empty_line (a b : string) :
  kept_lines (a +++ String Py.LF (String Py.LF b)) = kept_lines (a +++ String Py.LF b).
Proof.
  rewrite (kept_lines_app a (String Py.LF b)), (kept_lines_app a b).
  reflexivity.
Qed.

(** C4, as amended.  When the query succeeds, the result holds exactly
    one name for each output line that is not the empty string, in order,
    and none for an empty line: an empty line put between two parts of the
    output leaves the names unchanged.  (A line made of spaces only is not
    empty: see [whitespace_line_yields_a_name].) *)
Theorem find_slurm_nodes_empty_lines (states partitions : string) (w : World) :
  returncode (subprocess_run (sinfo_command states partitions)) = 0%Z ->
  let output := stdout (subprocess_run (sinfo_command states partitions)) in
  fst (find_slurm_nodes subprocess_run states partitions w)
  = Ok (map first_field
          (filter (fun l => negb (String.eqb l EmptyString))
                  (Py.split Py.LF output)))
  /\ (forall a b, output = a +++ String Py.LF (String Py.LF b) ->
       fst (find_slurm_nodes subprocess_run states partitions w)
       = Ok (node_names (a +++ String Py.LF b))).
Proof.
  intros Hrc output. rewrite find_slurm_nodes_success by assumption.
  split; [reflexivity|].
  intros a b E. cbn [fst]. fold output. rewrite E.
  unfold node_names. now rewrite kept_lines_empty_line.
Qed.

(** C5.  [find_slurm_nodes] raises exactly when the scheduler query
    reports a non-zero exit status (the exception carries the command
    report and nothing else has happened), and the loop that calls it
    lets the exception through; a query that succeeds and yields no node
    prints the fact and returns the empty list. *)
Theorem find_slurm_nodes_raises_iff (states partitions : string) (w : World) :
  (raises (fst (find_slurm_nodes subprocess_run states partitions w))
   <-> returncode (subprocess_run (sinfo_command states partitions)) <> 0%Z)
  /\ (returncode (subprocess_run (sinfo_command states partitions)) <> 0%Z ->
      find_slurm_nodes subprocess_run states partitions w
      = (Raise (Exception
                  (command_report
                     (run_shell_command subprocess_run
                        (sinfo_command states partitions)))), w))
  /\ (forall smtp_relay header_factory do_send_email,
      returncode (subprocess_run (sinfo_command states partitions)) <> 0%Z ->
      raises (fst (main_cycle subprocess_run smtp_relay header_factory states partitions
                              do_send_email w)))
  /\ (returncode (subprocess_run (sinfo_command states partitions)) = 0%Z ->
      node_names (stdout (subprocess_run (sinfo_command states partitions))) = [] ->
      find_slurm_nodes subprocess_run states partitions w
      = (Ok [],
         printed ("no nodes found! " +++ sinfo_command states partitions) w)).
Proof.
  split; [|split; [|split]].
  - destruct (Z.eq_dec (returncode (subprocess_run (sinfo_command states partitions))) 0) as [E|N].
    + rewrite find_slurm_nodes_success by assumption. cbn [fst].
      split; [intros [e H]; discriminate|intros H; contradiction].
    + rewrite find_slurm_nodes_failure by assumption. cbn [fst].
      split; [intros _; assumption|intros _; eexists; reflexivity].
  - apply find_slurm_nodes_failure.
  - intros smtp_relay header_factory do_send_email N. unfold main_cycle, bind.
    rewrite find_slurm_nodes_failure by assumption.
    eexists; reflexivity.
  - intros E H. rewrite find_slurm_nodes_success by assumption.
    now rewrite H.
Qed.

(** C10.  [purge_element] drops only the lines equal to the empty
    string, and a name is what precedes the first space of a kept line.
    So every non-empty line of a successful query's output yields a name,
    also a line of spaces or tabs only; the name is the empty string when
    the line begins with a space, and begins with the tab when the line
    begins with a tab. *)
Theorem whitespace_line_yields_a_name (states partitions : string) (w : World) (line : string) :
  returncode (subprocess_run (sinfo_command states partitions)) = 0%Z ->
  In line (Py.split Py.LF (stdout (subprocess_run (sinfo_command states partitions)))) ->
  line <> EmptyString ->
  (forall ls x, In x (purge_element ls EmptyString) <-> In x ls /\ x <> EmptyString)
  /\ (exists nodes,
        fst (find_slurm_nodes subprocess_run states partitions w) = Ok nodes
        /\ In (first_field line) nodes)
  /\ (forall r, line = String Py.SP r -> first_field line = EmptyString)
  /\ (forall r, line = String Py.TAB r ->
       first_field line = String Py.TAB (first_field r)).
Proof.
  intros Hrc Hin Hne. split; [|split; [|split]].
  - intros ls x; apply purge_element_spec.
  - rewrite find_slurm_nodes_success by assumption. cbn [fst].
    eexists; split; [reflexivity|].
    unfold node_names, kept_lines. apply in_map, purge_element_spec. now split.
  - intros r ->; reflexivity.
  - intros r ->; now apply first_field_cons_other.
Qed.

End Discovery.

(* ================================================================== *)
(** ** The GPU probe *)

Section Probe.

Variable subprocess_run : string -> CompletedProcess.
Variable smtp_relay : SmtpSession -> option exn.
Variable header_factory : string -> string -> option exn.

Variables (node ssh_user ssh_privkey : string) (w : World).
Hypothesis config_user : config_get "ssh" "user" w = (Ok ssh_user, w).
Hypothesis config_keyfile : config_get "ssh" "keyfile" w = (Ok ssh_privkey, w).

Local Notation "'probe'" := (probe subprocess_run ssh_user node ssh_privkey).

(** [check_gpu] once the command has run. *)
Lemma check_gpu_after_command (do_send_email : Py.value) :
  check_gpu subprocess_run smtp_relay header_factory node do_send_email w
  = (ssh_exit_code <- lift (Py.index_last (kept_lines (stdout probe))) ;;
     success <- (if Z.eqb (returncode probe) 0
                 then n <- lift (Py.int ssh_exit_code) ;; ret (Z.eqb n 0)
                 else ret false) ;;
     (if negb success && Py.truthy do_send_email then
        email_to <- config_get "email" "to" ;;
        email_from <- config_get "email" "from" ;;
        send_email smtp_relay header_factory email_to email_from
                   ("gpu-checker has detected an error on node " +++ node)
                   (command_report
                      (run_shell_command subprocess_run
                         (ssh_command ssh_user node ssh_privkey)))
      else ret tt) ;;
     (if success then print ("gpu works on node " +++ node) else ret tt) ;;
     ret success) w.
Proof.
  unfold check_gpu. unfold bind at 1. rewrite config_user.
  unfold bind at 1. rewrite config_keyfile.
  fold (ssh_command ssh_user node ssh_privkey).
  cbn [success shell_output command_report run_shell_command].
  rewrite strip_newlines_split. reflexivity.
Qed.

(** C1 (the code departs from it).  When the captured output has no
    non-empty line, so that no exit status was echoed, [check_gpu] raises
    [IndexError], whatever the outer exit status: the probe ends in an
    exception, not in the verdict false. *)
Theorem check_gpu_without_status_line_raises (do_send_email : Py.value) :
  kept_lines (stdout probe) = [] ->
  check_gpu subprocess_run smtp_relay header_factory node do_send_email w = (Raise IndexError, w).
Proof.
  intros H. rewrite check_gpu_after_command, H. reflexivity.
Qed.

(** C2 (the code departs from it).  Let [line] be the last non-empty
    line of the captured output.  The verdict is true exactly when the
    outer exit status is zero and [line] reads as the integer zero; but
    with a zero outer status and a [line] that is no integer the probe
    raises [ValueError] instead of answering false.  The answer is false
    (shown here with notification off) when the outer status is non-zero,
    or when it is zero and [line] reads as a non-zero integer. *)
Theorem check_gpu_verdict (do_send_email : Py.value) (line : string) :
  Py.index_last (kept_lines (stdout probe)) = Ok line ->
  (fst (check_gpu subprocess_run smtp_relay header_factory node do_send_email w) = Ok true
   <-> returncode probe = 0%Z /\ Py.int line = Ok 0%Z)
  /\ (returncode probe = 0%Z -> Py.int line = Raise ValueError ->
      check_gpu subprocess_run smtp_relay header_factory node do_send_email w
      = (Raise ValueError, w))
  /\ (Py.truthy do_send_email = false ->
      returncode probe <> 0%Z
      \/ (exists n, Py.int line = Ok n /\ n <> 0%Z) ->
      check_gpu subprocess_run smtp_relay header_factory node do_send_email w = (Ok false, w)).
Proof.
  intros Hl. rewrite check_gpu_after_command, Hl.
  unfold bind, lift, ret. cbn beta iota.
  destruct (Z.eqb_spec (returncode probe) 0) as [E|N].
  - destruct (Py.int line) as [n|e] eqn:Hi.
    + destruct (Z.eqb_spec n 0) as [->|Nn]; cbn [negb andb].
      * split; [|split].
        -- split; auto.
        -- discriminate.
        -- intros _ [H|(m & Hm & Hne)]; congruence.
      * split; [|split].
        -- split; [|intros [_ H]; congruence].
           destruct (Py.truthy do_send_email); [|discriminate].
           split_run; discriminate.
        -- discriminate.
        -- intros -> _. reflexivity.
    + split; [|split].
      * split; [discriminate|intros [_ H]; discriminate].
      * intros _ H; congruence.
      * intros _ [H|(m & Hm & _)]; [contradiction|discriminate].
  - cbn [negb andb]. split; [|split].
    + split; [|intros [H _]; contradiction].
      destruct (Py.truthy do_send_email); [|discriminate].
      split_run; discriminate.
    + intros H; contradiction.
    + intros -> _. reflexivity.
Qed.

End Probe.

(* ================================================================== *)
(** ** Notification and remediation *)

Section Remediation.

Variable subprocess_run : string -> CompletedProcess.
Variable smtp_relay : SmtpSession -> option exn.
Variable header_factory : string -> string -> option exn.

(** Each call of [send_email] is recorded once, whatever becomes of it. *)
Lemma send_email_records (to _from subject body : string) (w : World) :
  send_email_calls (snd (send_email smtp_relay header_factory to _from subject body w))
  = send_email_calls w
      ++ [ {| call_to := to; call_from := _from;
              call_subject := subject; call_body := body |} ].
Proof.
  destruct w as [[cfg|] file out calls sent];
    cbv beta delta [send_email bind record_call config_get print lift
                      raise deliver ret];
    cbn [CONFIG config_file console send_email_calls outbox];
    [|reflexivity].
  repeat match goal with
         | |- context [ConfigParser.getitem cfg ?a ?b] =>
             destruct (ConfigParser.getitem cfg a b);
             cbn [CONFIG config_file console send_email_calls outbox snd];
             [|reflexivity]
         | |- context [Py.int ?a] =>
             destruct (Py.int a);
             cbn [CONFIG config_file console send_email_calls outbox snd];
             [|reflexivity]
         | |- context [header_store_parse header_factory ?a ?b] =>
             destruct (header_store_parse header_factory a b);
             cbn [CONFIG config_file console send_email_calls outbox snd];
             [|reflexivity]
         | |- context [smtp_relay ?a] =>
             destruct (smtp_relay a);
             cbn [CONFIG config_file console send_email_calls outbox snd];
             reflexivity
         end.
Qed.

Lemma drain_node_without_notification (node reason : string)
      (do_send_email : Py.value) (w : World) :
  Py.truthy do_send_email = false ->
  drain_node subprocess_run smtp_relay header_factory node reason do_send_email w
  = (Ok Py.NoneV, w).
Proof. intros H. unfold drain_node. rewrite H. reflexivity. Qed.

(** C6, as amended.  [drain_node] has no [return]: whenever it comes
    back, whatever the exit status of the drain command, its value is
    [None], no boolean; with notification off it always comes back, leaving
    everything as it was. *)
Theorem drain_node_returns_none (node reason : string)
        (do_send_email : Py.value) (w : World) :
  (forall r,
      fst (drain_node subprocess_run smtp_relay header_factory node reason do_send_email w) = Ok r ->
      r = Py.NoneV)
  /\ (Py.truthy do_send_email = false ->
      drain_node subprocess_run smtp_relay header_factory node reason do_send_email w
      = (Ok Py.NoneV, w)).
Proof.
  split; [|apply drain_node_without_notification].
  intros r. unfold drain_node, bind, ret.
  split_run; cbn [fst]; congruence.
Qed.

(** C7.  With notification enabled and the addresses configured,
    [drain_node] calls [send_email] exactly once, with the report of the
    drain command as body; the subject says that the node was drained when
    the exit status the shell gave for the drain command is zero, and
    begins with ACTION REQUIRED when it is not. *)
Theorem drain_node_notifies_once (node reason : string)
        (do_send_email : Py.value) (w : World) (email_to email_from : string) :
  Py.truthy do_send_email = true ->
  config_get "email" "to" w = (Ok email_to, w) ->
  config_get "email" "from" w = (Ok email_from, w) ->
  let answer := subprocess_run (scontrol_command node reason) in
  let accepted := Z.eqb (returncode answer) 0 in
  send_email_calls
    (snd (drain_node subprocess_run smtp_relay header_factory node reason
                     do_send_email w))
  = send_email_calls w
      ++ [ {| call_to := email_to; call_from := email_from;
              call_subject := drain_subject node accepted;
              call_body := shell_report (scontrol_command node reason) answer |} ]
  /\ (returncode answer = 0%Z ->
      drain_subject node accepted = "gpu-checker has drained node " +++ node)
  /\ (returncode answer <> 0%Z ->
      drain_subject node accepted
      = "ACTION REQUIRED: gpu-checker wanted to drain node " +++ node
          +++ ", but failed")
  /\ String.prefix "ACTION REQUIRED" (drain_subject node accepted) = negb accepted.
Proof.
  intros Hflag Hto Hfrom answer accepted. split; [|split; [|split]].
  - unfold drain_node. rewrite Hflag.
    fold (scontrol_command node reason).
    rewrite run_shell_command_report. fold answer.
    change (success (run_shell_command subprocess_run
                       (scontrol_command node reason))) with accepted.
    unfold bind at 1 2. rewrite Hto. unfold bind at 1. rewrite Hfrom.
    pose proof (send_email_records email_to email_from
                  (drain_subject node accepted)
                  (shell_report (scontrol_command node reason) answer) w) as H.
    unfold drain_subject in *.
    destruct accepted;
      destruct (send_email smtp_relay header_factory _ _ _ _ w) as [[u|e] w'];
      cbn [snd] in *; exact H.
  - intros E. unfold accepted. now rewrite E.
  - intros N. unfold accepted.
    destruct (Z.eqb_spec (returncode answer) 0); [contradiction|reflexivity].
  - unfold drain_subject. destruct accepted; reflexivity.
Qed.

End Remediation.

(* ================================================================== *)
(** ** Configuration *)

Lemma str_in_In (x : string) (xs : list string) :
  Py.str_in x xs = true <-> In x xs.
Proof.
  unfold Py.str_in. rewrite existsb_exists. split.
  - intros (y & Hy & E). apply String.eqb_eq in E. now subst.
  - intros H. exists x. split; [assumption|apply String.eqb_refl].
Qed.

Lemma str_in_not_In (x : string) (xs : list string) :
  Py.str_in x xs = false <-> ~ In x xs.
Proof.
  rewrite <- str_in_In. destruct (Py.str_in x xs); intuition congruence.
Qed.

(** C9, as amended.  A string that reads, in any letter case, as one of
    true/1/t/y/yes gives [True]; one of false/0/f/n/no gives [False]; any
    other string gives [None], and no exception.  [None] counts as false
    wherever the program tests the flag, so the probe and the drain then
    run as with notification off. *)
Theorem str_to_bool_cases (s : string) :
  (In (Py.lower s) recognised_true -> str_to_bool s = Py.BoolV true)
  /\ (In (Py.lower s) recognised_false -> str_to_bool s = Py.BoolV false)
  /\ (~ In (Py.lower s) recognised_true -> ~ In (Py.lower s) recognised_false ->
      str_to_bool s = Py.NoneV
      /\ forall subprocess_run smtp_relay header_factory node reason w,
          check_gpu subprocess_run smtp_relay header_factory node (str_to_bool s) w
          = check_gpu subprocess_run smtp_relay header_factory node (Py.BoolV false) w
          /\ drain_node subprocess_run smtp_relay header_factory node reason (str_to_bool s) w
             = (Ok Py.NoneV, w)).
Proof.
  unfold str_to_bool. fold recognised_true recognised_false.
  split; [|split].
  - intros H. apply str_in_In in H. now rewrite H.
  - intros H.
    assert (Py.str_in (Py.lower s) recognised_true = false) as ->.
    { cbn in H. decompose [or] H; try contradiction;
        match goal with E : _ = Py.lower s |- _ => rewrite <- E end;
        reflexivity. }
    apply str_in_In in H. now rewrite H.
  - intros H1 H2. apply str_in_not_In in H1, H2. rewrite H1, H2.
    split; [reflexivity|]. intros; split; reflexivity.
Qed.

(** C8.  Started without a configuration file, the program builds the
    default configuration and writes it to the file; started again on that
    file, it reads back the same sections, keys and values (nodes, ssh,
    email, smtp_auth), and draws the same settings from them. *)
Theorem default_config_round_trip :
  let first := main_startup world0 in
  let second := main_startup (restart (snd first)) in
  fst first = Ok ("mixed,idle", "gpu", Py.BoolV false)
  /\ CONFIG (snd first) = Some default_config
  /\ config_file (snd first) = Some (ConfigParser.write default_config)
  /\ ConfigParser.read (ConfigParser.write default_config) = Ok default_config
  /\ CONFIG (snd second) = Some default_config
  /\ config_file (snd second) = config_file (snd first)
  /\ fst second = fst first.
Proof. vm_compute. repeat split. Qed.

(* ================================================================== *)
(** ** The statements at work on sample runs *)

Lemma check_gpu_without_status_line_raises_witness :
  check_gpu (shell_answers EmptyString 255) relay_accepts headers_accepted "gpu03"
            (Py.BoolV true) sample_world
  = (Raise IndexError, sample_world).
Proof.
  apply check_gpu_without_status_line_raises
    with (ssh_user := "monitor") (ssh_privkey := "/etc/gpu-checker/id");
    reflexivity.
Defined.

Lemma check_gpu_verdict_witness :
  check_gpu (shell_answers probe_output_without_status 0) relay_accepts headers_accepted "gpu03"
            (Py.BoolV true) sample_world
  = (Raise ValueError, sample_world)
  /\ fst (check_gpu (shell_answers healthy_probe_output 0) relay_accepts headers_accepted "gpu03"
                    (Py.BoolV true) sample_world)
     = Ok true.
Proof.
  split.
  - apply (check_gpu_verdict (shell_answers probe_output_without_status 0)
             relay_accepts headers_accepted "gpu03" "monitor" "/etc/gpu-checker/id" sample_world
             eq_refl eq_refl (Py.BoolV true) "NVIDIA-SMI has failed" eq_refl);
      reflexivity.
  - apply (check_gpu_verdict (shell_answers healthy_probe_output 0)
             relay_accepts headers_accepted "gpu03" "monitor" "/etc/gpu-checker/id" sample_world
             eq_refl eq_refl (Py.BoolV true) "0" eq_refl).
    split; reflexivity.
Defined.

Lemma find_slurm_nodes_well_formed_witness :
  fst (find_slurm_nodes (shell_answers sample_listing 0) "mixed,idle" "gpu"
                        sample_world)
  = Ok ["gpu01"; "gpu02"].
Proof.
  exact (proj1 (find_slurm_nodes_well_formed (shell_answers sample_listing 0)
                  "mixed,idle" "gpu" sample_world eq_refl eq_refl)).
Defined.

(** C4, as stated, fails: a line holding one space is blank, yet it
    yields an entry (the empty name), so that the result differs from the
    names of the non-blank lines. *)
Lemma blank_line_yields_an_entry :
  is_blank " " = true
  /\ fst (find_slurm_nodes (shell_answers listing_with_blank_line 0)
                           "mixed,idle" "gpu" sample_world)
     = Ok ["gpu01"; EmptyString; "gpu02"]
  /\ List.length (non_blank_lines listing_with_blank_line) = 2
  /\ fst (find_slurm_nodes (shell_answers listing_with_blank_line 0)
                           "mixed,idle" "gpu" sample_world)
     <> Ok (spec_find_nodes listing_with_blank_line).
Proof. repeat split; vm_compute; discriminate. Qed.

Lemma find_slurm_nodes_empty_lines_witness :
  fst (find_slurm_nodes (shell_answers listing_with_empty_line 0)
                        "mixed,idle" "gpu" sample_world)
  = Ok ["gpu01"; "gpu02"].
Proof.
  exact (proj2 (find_slurm_nodes_empty_lines
                  (shell_answers listing_with_empty_line 0)
                  "mixed,idle" "gpu" sample_world eq_refl)
               "gpu01 idle" ("gpu02 mixed" +++ Py.nl) eq_refl).
Defined.

Lemma find_slurm_nodes_raises_iff_witness :
  raises (fst (find_slurm_nodes (shell_answers EmptyString 1) "mixed,idle" "gpu"
                                sample_world))
  /\ find_slurm_nodes (shell_answers EmptyString 0) "mixed,idle" "gpu" sample_world
     = (Ok [],
        printed "no nodes found! sinfo --states=mixed,idle --partition=gpu -N --noheader"
                sample_world).
Proof.
  split.
  - apply (proj1 (find_slurm_nodes_raises_iff (shell_answers EmptyString 1)
                    "mixed,idle" "gpu" sample_world)).
    discriminate.
  - apply (proj2 (proj2 (proj2 (find_slurm_nodes_raises_iff
                                  (shell_answers EmptyString 0)
                                  "mixed,idle" "gpu" sample_world))));
      reflexivity.
Defined.

Lemma whitespace_line_yields_a_name_witness :
  exists nodes,
    fst (find_slurm_nodes (shell_answers listing_with_blank_line 0)
                          "mixed,idle" "gpu" sample_world) = Ok nodes
    /\ In EmptyString nodes.
Proof.
  apply (whitespace_line_yields_a_name
           (shell_answers listing_with_blank_line 0)
           "mixed,idle" "gpu" sample_world " ").
  - reflexivity.
  - cbn. auto.
  - discriminate.
Defined.

(** C6, as stated, fails: the drain command is accepted (exit status 0)
    or refused (exit status 1), and in both cases the value that comes back
    is [None], no boolean. *)
Lemma drain_node_reports_no_boolean :
  fst (drain_node (shell_answers EmptyString 0) relay_accepts headers_accepted
                  "gpu03" "nvidia-smi failure" (Py.BoolV true) sample_world)
  <> Ok (Py.BoolV true)
  /\ fst (drain_node (shell_answers EmptyString 1) relay_accepts headers_accepted
                     "gpu03" "nvidia-smi failure" (Py.BoolV true) sample_world)
     <> Ok (Py.BoolV false).
Proof. split; vm_compute; discriminate. Qed.

Lemma drain_node_returns_none_witness :
  drain_node (shell_answers EmptyString 0) relay_accepts headers_accepted
             "gpu03" "nvidia-smi failure" (Py.BoolV false) sample_world
  = (Ok Py.NoneV, sample_world).
Proof.
  apply (proj2 (drain_node_returns_none (shell_answers EmptyString 0)
                  relay_accepts headers_accepted "gpu03" "nvidia-smi failure" (Py.BoolV false)
                  sample_world)).
  reflexivity.
Defined.

Lemma drain_node_notifies_once_witness :
  map call_subject
      (send_email_calls
         (snd (drain_node (shell_answers EmptyString 1) relay_refuses headers_accepted
                          "gpu03" "nvidia-smi failure" (Py.BoolV true)
                          sample_world)))
  = ["ACTION REQUIRED: gpu-checker wanted to drain node gpu03, but failed"].
Proof.
  rewrite (proj1 (drain_node_notifies_once (shell_answers EmptyString 1)
                    relay_refuses headers_accepted "gpu03" "nvidia-smi failure" (Py.BoolV true)
                    sample_world "ops@example.org" "gpu-checker@example.org"
                    eq_refl eq_refl eq_refl)).
  reflexivity.
Defined.

(** C9, as stated, fails: with [enabled = maybe] in the file the
    program starts without any error, the flag is [None], and the probe
    runs as it does with the flag [False]. *)
Lemma unrecognised_flag_raises_nothing :
  let w := {| CONFIG := None;
              config_file := Some (file_with_enabled "maybe");
              console := []; send_email_calls := []; outbox := [] |} in
  str_to_bool "maybe" = Py.NoneV
  /\ fst (main_startup w) = Ok ("mixed,idle", "gpu", Py.NoneV)
  /\ ~ raises (fst (main_startup w))
  /\ check_gpu (shell_answers EmptyString 255) relay_accepts headers_accepted "gpu03"
               (str_to_bool "maybe") sample_world
     = check_gpu (shell_answers EmptyString 255) relay_accepts headers_accepted "gpu03"
                 (Py.BoolV false) sample_world.
Proof.
  repeat split.
  intros [e H]. vm_compute in H. discriminate.
Qed.

Lemma str_to_bool_cases_witness :
  str_to_bool "YES" = Py.BoolV true
  /\ str_to_bool "No" = Py.BoolV false
  /\ str_to_bool "maybe" = Py.NoneV.
Proof.
  split; [|split].
  - apply (proj1 (str_to_bool_cases "YES")). cbn. auto 10.
  - apply (proj1 (proj2 (str_to_bool_cases "No"))). cbn. auto 10.
  - apply (proj2 (proj2 (str_to_bool_cases "maybe")));
      cbn; intuition discriminate.
Defined.

(* ================================================================== *)
(** ** The helpers [multiline_str] and [purge_element] *)

(** X1.  [multiline_str] joins its arguments with line feeds: no line
    feed after the last one, and the empty string for no argument. *)
Theorem multiline_str_joins (argv : list string) :
  multiline_str argv = Py.join Py.nl argv.
Proof. apply multiline_str_join. Qed.

Lemma split_absent (sep : ascii) (s : string) :
  Py.contains sep s = false -> Py.split sep s = [s].
Proof.
  induction s as [|c r IH]; [reflexivity|]. cbn [Py.contains Py.split].
  destruct (Ascii.eqb c sep); [discriminate|]. cbn [orb].
  intros H. now rewrite (IH H).
Qed.

Lemma split_join (sep : ascii) (a : string) (r : list string) :
  Forall (fun x => Py.contains sep x = false) (a :: r) ->
  Py.split sep (Py.join (String sep EmptyString) (a :: r)) = a :: r.
Proof.
  revert a; induction r as [|b r IH]; intros a H.
  - apply split_absent. now inversion H.
  - pose proof (Forall_inv H) as Ha. pose proof (Forall_inv_tail H) as Hr.
    change (Py.join (String sep EmptyString) (a :: b :: r))
      with (a +++ String sep (Py.join (String sep EmptyString) (b :: r))).
    rewrite split_app_sep, (split_absent _ _ Ha), (IH b Hr). reflexivity.
Qed.

(** X2.  Taking the report apart gives the parts back: when there is at
    least one argument and none holds a line feed, splitting what
    [multiline_str] built at the line feeds returns the arguments. *)
Theorem multiline_str_split (argv : list string) :
  argv <> [] ->
  Forall (fun arg => Py.contains Py.LF arg = false) argv ->
  Py.split Py.LF (multiline_str argv) = argv.
Proof.
  intros Hne H. rewrite multiline_str_join.
  destruct argv as [|a r]; [contradiction|].
  now apply split_join.
Qed.

(** X3.  [purge_element] leaves no occurrence of the element behind,
    never lengthens the list, changes nothing when the element is absent,
    and purging again changes nothing more. *)
Theorem purge_element_removes_all (_list : list string) (elem : string) :
  ~ In elem (purge_element _list elem)
  /\ List.length (purge_element _list elem) <= List.length _list
  /\ (~ In elem _list -> purge_element _list elem = _list)
  /\ purge_element (purge_element _list elem) elem = purge_element _list elem.
Proof.
  split; [|split; [|split]].
  - intros H. apply purge_element_spec in H. now destruct H.
  - apply filter_length_le.
  - intros H. unfold purge_element. apply forallb_filter_id, forallb_forall.
    intros x Hx. apply negb_true_iff, String.eqb_neq. intros ->. contradiction.
  - unfold purge_element. apply forallb_filter_id, forallb_forall.
    intros x Hx. apply filter_In in Hx. now destruct Hx.
Qed.

(* ================================================================== *)
(** ** More on node discovery *)

Lemma first_field_no_space (line : string) :
  Py.contains Py.SP (first_field line) = false.
Proof.
  apply (split_no_sep Py.SP line). unfold first_field.
  destruct (Py.split Py.SP line) eqn:S; [now apply split_not_nil in S|now left].
Qed.

Lemma first_field_within (c : ascii) (line : string) :
  Py.contains c line = false -> Py.contains c (first_field line) = false.
Proof.
  induction line as [|d r IH]; [reflexivity|].
  cbn [Py.contains]. intros H. apply orb_false_iff in H as [Hd Hr].
  destruct (Ascii.eqb d Py.SP) eqn:E.
  - apply Ascii.eqb_eq in E. subst d. reflexivity.
  - rewrite first_field_cons_other by assumption.
    cbn [Py.contains]. now rewrite Hd, IH.
Qed.

Lemma kept_lines_nil_iff (output : string) :
  kept_lines output = [] <-> only_newlines output = true.
Proof.
  induction output as [|c r IH]; [split; reflexivity|].
  unfold kept_lines in *. cbn [Py.split only_newlines].
  destruct (Ascii.eqb c Py.LF); cbn [andb purge_element filter String.eqb negb].
  - exact IH.
  - destruct (Py.split Py.LF r);
      cbn [purge_element filter String.eqb negb]; split; discriminate.
Qed.

Section DiscoveryMore.

Variable subprocess_run : string -> CompletedProcess.

(** X4.  Every name [find_slurm_nodes] returns is free of spaces and
    of line feeds. *)
Theorem find_slurm_nodes_names_one_word (states partitions : string) (w : World)
        (nodes : list string) (name : string) :
  fst (find_slurm_nodes subprocess_run states partitions w) = Ok nodes ->
  In name nodes ->
  Py.contains Py.SP name = false /\ Py.contains Py.LF name = false.
Proof.
  intros H Hin.
  destruct (Z.eq_dec (returncode (subprocess_run (sinfo_command states partitions))) 0)
    as [E|N].
  - rewrite find_slurm_nodes_success in H by assumption. cbn [fst] in H.
    injection H as <-. unfold node_names in Hin.
    apply in_map_iff in Hin as (line & <- & Hl).
    apply purge_element_spec in Hl as [Hl _].
    split; [apply first_field_no_space|].
    apply first_field_within, (split_no_sep _ _ _ Hl).
  - rewrite find_slurm_nodes_failure in H by assumption. discriminate.
Qed.

(** X5.  After a successful query the result is empty exactly when the
    output holds nothing but line feeds (or nothing at all), and that is
    exactly when the no-nodes message is printed. *)
Theorem find_slurm_nodes_empty_iff (states partitions : string) (w : World) :
  returncode (subprocess_run (sinfo_command states partitions)) = 0%Z ->
  let output := stdout (subprocess_run (sinfo_command states partitions)) in
  (fst (find_slurm_nodes subprocess_run states partitions w) = Ok []
   <-> only_newlines output = true)
  /\ (only_newlines output = true ->
      snd (find_slurm_nodes subprocess_run states partitions w)
      = printed ("no nodes found! " +++ sinfo_command states partitions) w)
  /\ (only_newlines output = false ->
      snd (find_slurm_nodes subprocess_run states partitions w) = w).
Proof.
  intros E output. rewrite find_slurm_nodes_success by assumption.
  fold output. cbn [fst snd].
  assert (node_names output = [] <-> only_newlines output = true) as Hn.
  { rewrite <- kept_lines_nil_iff. unfold node_names.
    destruct (kept_lines output); cbn [map]; split; congruence. }
  split; [|split].
  - rewrite <- Hn. split; congruence.
  - intros H. apply Hn in H. now rewrite H.
  - intros H. destruct (node_names output) eqn:Hnn; [|reflexivity].
    destruct Hn as [Hn _]. rewrite Hn in H by reflexivity. discriminate.
Qed.

End DiscoveryMore.

(* ================================================================== *)
(** ** What a run of the monitor leaves alone *)

Lemma grows_refl (w : World) : grows w w.
Proof.
  repeat split. exists [], [], []. now rewrite !app_nil_r.
Qed.

Lemma grows_trans (w1 w2 w3 : World) : grows w1 w2 -> grows w2 w3 -> grows w1 w3.
Proof.
  intros (C1 & F1 & t1 & c1 & s1 & Ht1 & Hc1 & Hs1)
         (C2 & F2 & t2 & c2 & s2 & Ht2 & Hc2 & Hs2).
  split; [congruence|]. split; [congruence|].
  exists (t1 ++ t2), (c1 ++ c2), (s1 ++ s2).
  rewrite Ht2, Hc2, Hs2, Ht1, Hc1, Hs1, !app_assoc.
  repeat split.
Qed.

Lemma grows_extended (w : World) texts calls sessions :
  grows w (extended w texts calls sessions).
Proof. repeat split. now exists texts, calls, sessions. Qed.

Lemma steady_ret {A} (a : A) : steady (ret a).
Proof. intros w. apply grows_refl. Qed.

Lemma steady_raise {A} (e : exn) : steady (@raise A e).
Proof. intros w. apply grows_refl. Qed.

Lemma steady_lift {A} (r : result A) : steady (lift r).
Proof. intros w. apply grows_refl. Qed.

Lemma steady_bind {A B} (m : M A) (k : A -> M B) :
  steady m -> (forall a, steady (k a)) -> steady (bind m k).
Proof.
  intros Hm Hk w. unfold bind. specialize (Hm w).
  destruct (m w) as [[a|e] w1]; cbn [snd] in *; [|assumption].
  eapply grows_trans; [eassumption|apply Hk].
Qed.

Lemma steady_print (text : string) : steady (print text).
Proof.
  intros w. repeat split. exists [text], [], []. cbn.
  now rewrite !app_nil_r.
Qed.

Lemma steady_record_call (c : EmailCall) : steady (record_call c).
Proof.
  intros w. repeat split. exists [], [c], []. cbn.
  now rewrite !app_nil_r.
Qed.

Lemma steady_deliver (s : SmtpSession) : steady (deliver s).
Proof.
  intros w. repeat split. exists [], [], [s]. cbn.
  now rewrite !app_nil_r.
Qed.

Lemma steady_config_get (section key : string) : steady (config_get section key).
Proof.
  intros w. unfold config_get. destruct (CONFIG w); apply grows_refl.
Qed.

Lemma steady_mapM {A B} (f : A -> M B) (xs : list A) :
  (forall x, steady (f x)) -> steady (mapM f xs).
Proof.
  intros Hf. induction xs as [|x r IH]; cbn [mapM]; [apply steady_ret|].
  apply steady_bind; [apply Hf|]. intros y.
  apply steady_bind; [apply IH|]. intros ys. apply steady_ret.
Qed.

(** Steadiness of a computation, from that of its parts. *)
Ltac steady_with known :=
  repeat first
    [ known
    | apply steady_ret | apply steady_raise | apply steady_lift
    | apply steady_print | apply steady_record_call | apply steady_deliver
    | apply steady_config_get
    | apply steady_bind; [|intros ?]
    | match goal with
      | |- steady (if ?b then _ else _) => destruct b
      | |- steady (match ?x with _ => _ end) => destruct x
      end ].

Ltac steady := steady_with fail.

Section Steady.

Variable subprocess_run : string -> CompletedProcess.
Variable smtp_relay : SmtpSession -> option exn.
Variable header_factory : string -> string -> option exn.

Lemma steady_send_email (to _from subject body : string) :
  steady (send_email smtp_relay header_factory to _from subject body).
Proof. unfold send_email. steady. Qed.

Lemma steady_find_slurm_nodes (states partitions : string) :
  steady (find_slurm_nodes subprocess_run states partitions).
Proof.
  unfold find_slurm_nodes. steady.
  apply steady_mapM. intros line. steady.
Qed.

Lemma steady_check_gpu (node : string) (do_send_email : Py.value) :
  steady (check_gpu subprocess_run smtp_relay header_factory node do_send_email).
Proof. unfold check_gpu. steady_with ltac:(apply steady_send_email). Qed.

Lemma steady_drain_node (node reason : string) (do_send_email : Py.value) :
  steady (drain_node subprocess_run smtp_relay header_factory node reason do_send_email).
Proof. unfold drain_node. steady_with ltac:(apply steady_send_email). Qed.

Lemma steady_main_loop_body (node : string) (do_send_email : Py.value) :
  steady (main_loop_body subprocess_run smtp_relay header_factory node do_send_email).
Proof.
  unfold main_loop_body.
  apply steady_bind; [apply steady_check_gpu|]. intros gpu_works.
  destruct (negb gpu_works); [|apply steady_ret].
  apply steady_bind; [apply steady_drain_node|]. intros _. apply steady_ret.
Qed.

(** X6.  One pass of the monitor over the nodes, however it ends,
    leaves the configuration and its file as they were, and only adds to
    what was printed, to the calls of [send_email] and to the sessions the
    mail relay completed. *)
Theorem main_cycle_grows (states partitions : string) (do_send_email : Py.value)
        (w : World) :
  grows w (snd (main_cycle subprocess_run smtp_relay header_factory states partitions
                           do_send_email w)).
Proof.
  revert w. change (steady (main_cycle subprocess_run smtp_relay header_factory states
                                       partitions do_send_email)).
  unfold main_cycle.
  apply steady_bind; [apply steady_find_slurm_nodes|]. intros nodes.
  apply steady_bind; [|intros _; apply steady_ret].
  apply steady_mapM. intros node. apply steady_main_loop_body.
Qed.

End Steady.

(* ================================================================== *)
(** ** Sending one email *)

Lemma config_get_of (w : World) (cfg : ConfigParser.t) (section key : string) :
  CONFIG w = Some cfg ->
  config_get section key w = (ConfigParser.getitem cfg section key, w).
Proof. intros H. unfold config_get. now rewrite H. Qed.

Lemma extended_extended (w : World) t1 c1 s1 t2 c2 s2 :
  extended (extended w t1 c1 s1) t2 c2 s2
  = extended w (t1 ++ t2) (c1 ++ c2) (s1 ++ s2).
Proof. unfold extended. cbn. now rewrite !app_assoc. Qed.

Lemma printed_extended (w : World) (text : string) :
  printed text w = extended w [text] [] [].
Proof. unfold printed, extended. now rewrite !app_nil_r. Qed.

Lemma header_store_parse_value (header_factory : string -> string -> option exn)
      (name value parsed : string) :
  header_store_parse header_factory name value = Ok parsed -> parsed = value.
Proof.
  unfold header_store_parse.
  destruct (1 <? List.length (Py.splitlines value))%nat; [discriminate|].
  destruct (header_factory name value); [discriminate|congruence].
Qed.

Section Mail.

Variable smtp_relay : SmtpSession -> option exn.
Variable header_factory : string -> string -> option exn.
Variables (w : World) (cfg : ConfigParser.t) (m : MailSettings).
Hypothesis config_loaded : CONFIG w = Some cfg.
Hypothesis settings : mail_settings_of cfg m.

Variables to _from subject body : string.

(** [send_email] with every setting in place: what is left to decide the
    outcome is the three header assignments, the port and the mail relay. *)
Lemma send_email_run :
  send_email smtp_relay header_factory to _from subject body w
  = let stopped e :=
      (@Raise unit e,
       extended w [email_banner m to _from subject body]
                [email_call to _from subject body] []) in
    match header_store_parse header_factory "To" to with
    | Raise e => stopped e
    | Ok _ =>
    match header_store_parse header_factory "From" _from with
    | Raise e => stopped e
    | Ok _ =>
    match header_store_parse header_factory "Subject" subject with
    | Raise e => stopped e
    | Ok _ =>
    match Py.int (set_port m) with
    | Raise e => stopped e
    | Ok port =>
        match smtp_relay (email_session m port to _from subject body) with
        | Some e => stopped e
        | None =>
            (Ok tt,
             extended w [email_banner m to _from subject body; email_done]
                      [email_call to _from subject body]
                      [email_session m port to _from subject body])
        end
    end end end end.
Proof.
  destruct settings as (Hsig & Hhost & Hport & Huser & Hpass & Hssl).
  destruct w as [c file out calls sent]. cbn [CONFIG] in config_loaded.
  subst c.
  unfold email_session, email_banner, email_call.
  cbv beta iota zeta delta [send_email bind record_call config_get print lift
                              raise deliver ret extended CONFIG config_file
                              console send_email_calls outbox].
  rewrite Hsig; cbv beta iota zeta.
  destruct (header_store_parse header_factory "To" to) as [v1|e] eqn:E1;
    cbv beta iota zeta; [|now rewrite app_nil_r].
  apply header_store_parse_value in E1. subst v1.
  destruct (header_store_parse header_factory "From" _from) as [v2|e] eqn:E2;
    cbv beta iota zeta; [|now rewrite app_nil_r].
  apply header_store_parse_value in E2. subst v2.
  destruct (header_store_parse header_factory "Subject" subject) as [v3|e] eqn:E3;
    cbv beta iota zeta; [|now rewrite app_nil_r].
  apply header_store_parse_value in E3. subst v3.
  rewrite Hhost; cbv beta iota zeta.
  rewrite Hport; cbv beta iota zeta.
  destruct (Py.int (set_port m)) as [port|e]; cbv beta iota zeta;
    [|now rewrite app_nil_r].
  rewrite Huser; cbv beta iota zeta. rewrite Hpass; cbv beta iota zeta.
  rewrite Hssl; cbv beta iota zeta.
  match goal with
  | |- context [smtp_relay ?s] => destruct (smtp_relay s)
  end; cbv beta iota zeta; [now rewrite app_nil_r|].
  now rewrite <- app_assoc.
Qed.

(** The same, once the three header assignments go through. *)
Lemma send_email_run_accepted :
  header_accepted header_factory "To" to ->
  header_accepted header_factory "From" _from ->
  header_accepted header_factory "Subject" subject ->
  send_email smtp_relay header_factory to _from subject body w
  = match Py.int (set_port m) with
    | Raise e =>
        (Raise e,
         extended w [email_banner m to _from subject body]
                  [email_call to _from subject body] [])
    | Ok port =>
        match smtp_relay (email_session m port to _from subject body) with
        | Some e =>
            (Raise e,
             extended w [email_banner m to _from subject body]
                      [email_call to _from subject body] [])
        | None =>
            (Ok tt,
             extended w [email_banner m to _from subject body; email_done]
                      [email_call to _from subject body]
                      [email_session m port to _from subject body])
        end
    end.
Proof.
  unfold header_accepted. intros H1 H2 H3.
  rewrite send_email_run, H1, H2, H3. reflexivity.
Qed.

(** X7.  With the settings in place, recipient, sender and subject
    accepted as headers (one line each, and the header parser raises
    nothing), a port that reads as an integer and a relay that completes
    the session, [send_email] returns after one session carrying the
    message: the body followed by the signature on a new line, the given
    recipient, sender and subject, with SSL exactly when [is_ssl] reads as
    true; it prints the message before the session and the success line
    after it. *)
Theorem send_email_delivers (port : Z) :
  header_accepted header_factory "To" to ->
  header_accepted header_factory "From" _from ->
  header_accepted header_factory "Subject" subject ->
  Py.int (set_port m) = Ok port ->
  smtp_relay (email_session m port to _from subject body) = None ->
  send_email smtp_relay header_factory to _from subject body w
  = (Ok tt,
     extended w [email_banner m to _from subject body; email_done]
              [email_call to _from subject body]
              [email_session m port to _from subject body])
  /\ msg_content (smtp_message (email_session m port to _from subject body))
     = body +++ Py.nl +++ set_signature m
  /\ (smtp_ssl (email_session m port to _from subject body) = true
      <-> In (Py.lower (set_is_ssl m)) recognised_true).
Proof.
  intros H1 H2 H3 Hp Hr. split; [|split].
  - now rewrite send_email_run_accepted, Hp, Hr.
  - cbn [email_session smtp_message msg_content].
    now rewrite multiline_str_join.
  - cbn [email_session smtp_ssl]. unfold str_to_bool.
    fold recognised_true recognised_false. rewrite <- str_in_In.
    destruct (Py.str_in (Py.lower (set_is_ssl m)) recognised_true);
      [now split|].
    destruct (Py.str_in (Py.lower (set_is_ssl m)) recognised_false);
      cbn; split; discriminate.
Qed.

(** X8.  With recipient, sender and subject accepted as headers, when
    the relay refuses the session [send_email] raises what the relay
    raised: the message was printed, the success line was not, and no
    session is counted as completed. *)
Theorem send_email_refused (port : Z) (e : exn) :
  header_accepted header_factory "To" to ->
  header_accepted header_factory "From" _from ->
  header_accepted header_factory "Subject" subject ->
  Py.int (set_port m) = Ok port ->
  smtp_relay (email_session m port to _from subject body) = Some e ->
  send_email smtp_relay header_factory to _from subject body w
  = (Raise e,
     extended w [email_banner m to _from subject body]
              [email_call to _from subject body] []).
Proof.
  intros H1 H2 H3 Hp Hr. now rewrite send_email_run_accepted, Hp, Hr.
Qed.


End Mail.

(* ================================================================== *)
(** ** The probe and what follows it *)

Section ProbeMore.

Variable subprocess_run : string -> CompletedProcess.
Variable smtp_relay : SmtpSession -> option exn.
Variable header_factory : string -> string -> option exn.
Variables (node ssh_user ssh_privkey : string).
Variables (w : World) (cfg : ConfigParser.t).
Hypothesis config_loaded : CONFIG w = Some cfg.
Hypothesis config_user : ConfigParser.getitem cfg "ssh" "user" = Ok ssh_user.
Hypothesis config_keyfile : ConfigParser.getitem cfg "ssh" "keyfile" = Ok ssh_privkey.

Local Notation "'answer'" := (probe subprocess_run ssh_user node ssh_privkey).
Local Notation "'report'" :=
  (shell_report (ssh_command ssh_user node ssh_privkey) answer).

(** [check_gpu], outcome by outcome of the verdict. *)
Lemma check_gpu_by_verdict (do_send_email : Py.value) :
  check_gpu subprocess_run smtp_relay header_factory node do_send_email w
  = match probe_verdict answer with
    | Raise e => (Raise e, w)
    | Ok true => (Ok true, printed ("gpu works on node " +++ node) w)
    | Ok false =>
        if Py.truthy do_send_email then
          match (email_to <- config_get "email" "to" ;;
                 email_from <- config_get "email" "from" ;;
                 send_email smtp_relay header_factory email_to email_from
                            (error_subject node) report) w with
          | (Ok _, w') => (Ok false, w')
          | (Raise e, w') => (Raise e, w')
          end
        else (Ok false, w)
    end.
Proof.
  rewrite (check_gpu_after_command subprocess_run smtp_relay header_factory node
             ssh_user ssh_privkey w)
    by (rewrite (config_get_of w cfg) by assumption; congruence).
  rewrite run_shell_command_report.
  unfold probe_verdict. fold answer.
  unfold bind at 1, lift at 1.
  destruct (Py.index_last (kept_lines (stdout answer))) as [line|e];
    [|reflexivity].
  unfold bind at 1.
  destruct (Z.eqb (returncode answer) 0).
  - unfold bind at 1, lift at 1.
    destruct (Py.int line) as [n|e]; [|reflexivity].
    unfold ret at 1. destruct (Z.eqb n 0); cbn [negb andb].
    + reflexivity.
    + destruct (Py.truthy do_send_email); [|reflexivity].
      unfold bind at 1. fold (error_subject node).
      destruct ((email_to <- config_get "email" "to" ;;
                 email_from <- config_get "email" "from" ;;
                 send_email smtp_relay header_factory email_to email_from
                            (error_subject node) report) w) as [[u|e] w'];
        reflexivity.
  - unfold ret at 1. cbn [negb andb].
    destruct (Py.truthy do_send_email); [|reflexivity].
    unfold bind at 1. fold (error_subject node).
    destruct ((email_to <- config_get "email" "to" ;;
               email_from <- config_get "email" "from" ;;
               send_email smtp_relay header_factory email_to email_from
                          (error_subject node) report) w) as [[u|e] w'];
      reflexivity.
Qed.

(** X10.  A probe whose verdict is true sends nothing, whatever the
    notification flag: [check_gpu] prints that the GPU works and returns
    [True]. *)
Theorem check_gpu_healthy (do_send_email : Py.value) :
  probe_verdict answer = Ok true ->
  check_gpu subprocess_run smtp_relay header_factory node do_send_email w
  = (Ok true, printed ("gpu works on node " +++ node) w).
Proof. intros H. now rewrite check_gpu_by_verdict, H. Qed.

Variables (email_to email_from : string) (m : MailSettings) (port : Z).
Hypothesis config_to : ConfigParser.getitem cfg "email" "to" = Ok email_to.
Hypothesis config_from : ConfigParser.getitem cfg "email" "from" = Ok email_from.
Hypothesis settings : mail_settings_of cfg m.
Hypothesis port_number : Py.int (set_port m) = Ok port.
Hypothesis to_accepted : header_accepted header_factory "To" email_to.
Hypothesis from_accepted : header_accepted header_factory "From" email_from.

Lemma notify_run (subject body : string) (w1 : World) :
  CONFIG w1 = Some cfg ->
  (to <- config_get "email" "to" ;;
   _from <- config_get "email" "from" ;;
   send_email smtp_relay header_factory to _from subject body) w1
  = send_email smtp_relay header_factory email_to email_from subject body w1.
Proof.
  intros H. unfold bind.
  rewrite (config_get_of w1 cfg) by assumption. rewrite config_to.
  rewrite (config_get_of w1 cfg) by assumption. rewrite config_from.
  reflexivity.
Qed.

(** A failed probe with notification on: the outcome is that of the email. *)
Lemma check_gpu_failed_run (do_send_email : Py.value) :
  probe_verdict answer = Ok false ->
  Py.truthy do_send_email = true ->
  check_gpu subprocess_run smtp_relay header_factory node do_send_email w
  = match send_email smtp_relay header_factory email_to email_from
                     (error_subject node) report w with
    | (Ok _, w') => (Ok false, w')
    | (Raise e, w') => (Raise e, w')
    end.
Proof.
  intros Hv Hf. rewrite check_gpu_by_verdict, Hv, Hf.
  now rewrite notify_run by assumption.
Qed.

(** The email about the failed probe, headers accepted. *)
Lemma error_email_run :
  header_accepted header_factory "Subject" (error_subject node) ->
  send_email smtp_relay header_factory email_to email_from
             (error_subject node) report w
  = match smtp_relay (email_session m port email_to email_from
                                    (error_subject node) report) with
    | Some e =>
        (Raise e,
         extended w
           [email_banner m email_to email_from (error_subject node) report]
           [email_call email_to email_from (error_subject node) report] [])
    | None =>
        (Ok tt,
         extended w
           [email_banner m email_to email_from (error_subject node) report;
            email_done]
           [email_call email_to email_from (error_subject node) report]
           [email_session m port email_to email_from (error_subject node)
                          report])
    end.
Proof.
  intros Hs.
  rewrite (send_email_run_accepted smtp_relay header_factory w cfg m
             config_loaded settings) by assumption.
  now rewrite port_number.
Qed.

(** X11.  A probe whose verdict is false, with notification on, the
    mail settings in place and recipient, sender and subject accepted as
    headers (the subject ends with the node name, which must then hold no
    line break before its end), sends exactly one email, whose subject
    names the node and whose body is the report of the probe command, and
    returns [False]. *)
Theorem check_gpu_unhealthy_notifies (do_send_email : Py.value) :
  probe_verdict answer = Ok false ->
  Py.truthy do_send_email = true ->
  header_accepted header_factory "Subject" (error_subject node) ->
  smtp_relay (email_session m port email_to email_from
                            (error_subject node) report) = None ->
  check_gpu subprocess_run smtp_relay header_factory node do_send_email w
  = (Ok false,
     extended w
       [email_banner m email_to email_from (error_subject node) report;
        email_done]
       [email_call email_to email_from (error_subject node) report]
       [email_session m port email_to email_from (error_subject node) report]).
Proof.
  intros Hv Hf Hs Hr. rewrite check_gpu_failed_run by assumption.
  now rewrite error_email_run, Hr by assumption.
Qed.

(** X12.  In the same setting, when the relay refuses that email
    [check_gpu] returns no verdict: it raises what the relay raised. *)
Theorem check_gpu_unhealthy_refused (do_send_email : Py.value) (e : exn) :
  probe_verdict answer = Ok false ->
  Py.truthy do_send_email = true ->
  header_accepted header_factory "Subject" (error_subject node) ->
  smtp_relay (email_session m port email_to email_from
                            (error_subject node) report) = Some e ->
  check_gpu subprocess_run smtp_relay header_factory node do_send_email w
  = (Raise e,
     extended w
       [email_banner m email_to email_from (error_subject node) report]
       [email_call email_to email_from (error_subject node) report] []).
Proof.
  intros Hv Hf Hs Hr. rewrite check_gpu_failed_run by assumption.
  now rewrite error_email_run, Hr by assumption.
Qed.

Local Notation "'drain_command'" := (scontrol_command node "nvidia-smi failure").
Local Notation "'drained'" := (subprocess_run drain_command).

Lemma drain_node_run (reason : string) (do_send_email : Py.value) (w1 : World) :
  CONFIG w1 = Some cfg ->
  Py.truthy do_send_email = true ->
  drain_node subprocess_run smtp_relay header_factory node reason do_send_email w1
  = match send_email smtp_relay header_factory email_to email_from
                     (drain_subject node
                        (Z.eqb (returncode
                                  (subprocess_run (scontrol_command node reason)))
                               0))
                     (shell_report (scontrol_command node reason)
                                   (subprocess_run (scontrol_command node reason)))
                     w1 with
    | (Ok _, w') => (Ok Py.NoneV, w')
    | (Raise e, w') => (Raise e, w')
    end.
Proof.
  intros H Hf. unfold drain_node. rewrite Hf.
  fold (scontrol_command node reason). rewrite run_shell_command_report.
  change (success (run_shell_command subprocess_run
                     (scontrol_command node reason)))
    with (Z.eqb (returncode (subprocess_run (scontrol_command node reason))) 0).
  unfold bind at 1 2.
  rewrite (config_get_of w1 cfg) by assumption. rewrite config_to.
  unfold bind at 1.
  rewrite (config_get_of w1 cfg) by assumption. rewrite config_from.
  unfold drain_subject, ret.
  destruct (Z.eqb (returncode (subprocess_run (scontrol_command node reason))) 0);
    match goal with
    | |- context [send_email ?r ?h ?a ?b ?c ?d ?x] =>
        destruct (send_email r h a b c d x) as [[u|e] w']
    end; reflexivity.
Qed.

(** X13.  For a node whose probe fails, with notification on, the mail
    settings in place, recipient, sender and both subjects accepted as
    headers and a relay that completes every session, the loop body sends
    two emails, in this order: the one reporting the failed probe, then
    the one reporting how the drain went, its subject decided by the exit
    status the shell gave for the drain command. *)
Theorem main_loop_body_two_emails (do_send_email : Py.value) :
  probe_verdict answer = Ok false ->
  Py.truthy do_send_email = true ->
  (forall s, smtp_relay s = None) ->
  header_accepted header_factory "Subject" (error_subject node) ->
  header_accepted header_factory "Subject"
                  (drain_subject node (Z.eqb (returncode drained) 0)) ->
  let subject := drain_subject node (Z.eqb (returncode drained) 0) in
  let drain_report := shell_report drain_command drained in
  main_loop_body subprocess_run smtp_relay header_factory node do_send_email w
  = (Ok tt,
     extended w
       [email_banner m email_to email_from (error_subject node) report;
        email_done;
        email_banner m email_to email_from subject drain_report;
        email_done]
       [email_call email_to email_from (error_subject node) report;
        email_call email_to email_from subject drain_report]
       [email_session m port email_to email_from (error_subject node) report;
        email_session m port email_to email_from subject drain_report]).
Proof.
  intros Hv Hf Hr Hs1 Hs2 subject drain_report.
  subst subject drain_report. unfold main_loop_body, bind at 1.
  rewrite check_gpu_failed_run by assumption.
  rewrite error_email_run, Hr by assumption.
  cbn [negb]. unfold bind at 1.
  rewrite drain_node_run by (assumption || exact config_loaded).
  rewrite (send_email_run_accepted smtp_relay header_factory
             (extended w
                [email_banner m email_to email_from (error_subject node) report;
                 email_done]
                [email_call email_to email_from (error_subject node) report]
                [email_session m port email_to email_from
                               (error_subject node) report])
             cfg m config_loaded settings) by assumption.
  rewrite port_number, Hr.
  unfold ret. now rewrite extended_extended.
Qed.


(** X15.  In the setting of X12, when the relay refuses the email about
    the failed probe, the loop body ends there with the relay's exception:
    the notification of the drain is never reached. *)
Theorem main_loop_body_refused (do_send_email : Py.value) (e : exn) :
  probe_verdict answer = Ok false ->
  Py.truthy do_send_email = true ->
  header_accepted header_factory "Subject" (error_subject node) ->
  smtp_relay (email_session m port email_to email_from
                            (error_subject node) report) = Some e ->
  main_loop_body subprocess_run smtp_relay header_factory node do_send_email w
  = (Raise e,
     extended w
       [email_banner m email_to email_from (error_subject node) report]
       [email_call email_to email_from (error_subject node) report] []).
Proof.
  intros Hv Hf Hs Hr. unfold main_loop_body, bind at 1.
  rewrite check_gpu_failed_run by assumption.
  now rewrite error_email_run, Hr by assumption.
Qed.

End ProbeMore.

(* ================================================================== *)
(** ** Notification off *)

Lemma quiet_ret {A} (a : A) : quiet (ret a).
Proof. intros w. now split. Qed.

Lemma quiet_raise {A} (e : exn) : quiet (@raise A e).
Proof. intros w. now split. Qed.

Lemma quiet_lift {A} (r : result A) : quiet (lift r).
Proof. intros w. now split. Qed.

Lemma quiet_print (text : string) : quiet (print text).
Proof. intros w. now split. Qed.

Lemma quiet_config_get (section key : string) : quiet (config_get section key).
Proof. intros w. unfold config_get. destruct (CONFIG w); now split. Qed.

Lemma quiet_bind {A B} (m : M A) (k : A -> M B) :
  quiet m -> (forall a, quiet (k a)) -> quiet (bind m k).
Proof.
  intros Hm Hk w. unfold bind. specialize (Hm w).
  destruct (m w) as [[a|e] w1]; cbn [snd] in *; [|assumption].
  destruct (Hk a w1) as [H1 H2]. destruct Hm as [H3 H4].
  split; congruence.
Qed.

Lemma quiet_mapM {A B} (f : A -> M B) (xs : list A) :
  (forall x, quiet (f x)) -> quiet (mapM f xs).
Proof.
  intros Hf. induction xs as [|x r IH]; cbn [mapM]; [apply quiet_ret|].
  apply quiet_bind; [apply Hf|]. intros y.
  apply quiet_bind; [apply IH|]. intros ys. apply quiet_ret.
Qed.

Ltac quiet :=
  repeat first
    [ apply quiet_ret | apply quiet_raise | apply quiet_lift
    | apply quiet_print | apply quiet_config_get
    | apply quiet_bind; [|intros ?]
    | match goal with
      | |- quiet (if negb ?a && false then _ else _) =>
          destruct a; cbn [negb andb]
      | |- quiet (if false then _ else _) => cbv iota
      | |- quiet (if ?b then _ else _) => destruct b
      end ].

Section Silent.

Variable subprocess_run : string -> CompletedProcess.
Variable smtp_relay : SmtpSession -> option exn.
Variable header_factory : string -> string -> option exn.

Lemma quiet_find_slurm_nodes (states partitions : string) :
  quiet (find_slurm_nodes subprocess_run states partitions).
Proof.
  unfold find_slurm_nodes.
  destruct (negb _); [apply quiet_raise|].
  apply quiet_bind; [apply quiet_mapM; intros line; apply quiet_lift|].
  intros nodes. quiet.
Qed.

Lemma quiet_main_loop_body (node : string) (do_send_email : Py.value) :
  Py.truthy do_send_email = false ->
  quiet (main_loop_body subprocess_run smtp_relay header_factory node do_send_email).
Proof.
  intros H. unfold main_loop_body, check_gpu, drain_node. rewrite H.
  quiet.
Qed.

(** X16.  With the notification flag off (or not recognised), one pass
    of the monitor over the nodes sends nothing, however the probes and
    the drains go: [send_email] is never called and no mail session is
    opened. *)
Theorem main_cycle_silent (states partitions : string) (do_send_email : Py.value)
        (w : World) :
  Py.truthy do_send_email = false ->
  send_email_calls
    (snd (main_cycle subprocess_run smtp_relay header_factory states partitions do_send_email w))
  = send_email_calls w
  /\ outbox
       (snd (main_cycle subprocess_run smtp_relay header_factory states partitions
                        do_send_email w))
     = outbox w.
Proof.
  intros H. revert w.
  change (quiet (main_cycle subprocess_run smtp_relay header_factory states partitions
                            do_send_email)).
  unfold main_cycle.
  apply quiet_bind; [apply quiet_find_slurm_nodes|]. intros nodes.
  apply quiet_bind; [|intros _; apply quiet_ret].
  apply quiet_mapM. intros node. now apply quiet_main_loop_body.
Qed.

End Silent.

(* ================================================================== *)
(** ** Starting up *)

Section Startup.

Variable w : World.

(** X17.  Starting up never rewrites a configuration file that exists;
    when there is none, the file written is the default configuration,
    which is also the configuration the run goes on with, notification
    off. *)
Theorem main_startup_file :
  (forall text, config_file w = Some text ->
                config_file (snd (main_startup w)) = Some text)
  /\ (config_file w = None ->
      config_file (snd (main_startup w)) = Some (ConfigParser.write default_config)
      /\ CONFIG (snd (main_startup w)) = Some default_config
      /\ fst (main_startup w) = Ok ("mixed,idle", "gpu", Py.BoolV false)).
Proof.
  destruct w as [c file out calls sent]. cbn [config_file]. split.
  - intros text ->.
    cbv beta iota zeta delta [main_startup bind config_assign isfile
                                config_read config_get ret CONFIG config_file
                                console send_email_calls outbox fst snd].
    destruct (ConfigParser.read text) as [cfg|e]; cbv beta iota; [|reflexivity].
    repeat match goal with
           | |- context [ConfigParser.getitem cfg ?a ?b] =>
               destruct (ConfigParser.getitem cfg a b); cbv beta iota
           end; reflexivity.
  - intros ->. vm_compute. repeat split.
Qed.

(** X18.  Starting up on an existing file: an error of the parser ends
    the start; a file without a [nodes] section ends it with [KeyError];
    and when the three settings are there they are what the start returns,
    the notification flag read by [str_to_bool]. *)
Theorem main_startup_from_file (text : string) :
  config_file w = Some text ->
  (forall e, ConfigParser.read text = Raise e -> fst (main_startup w) = Raise e)
  /\ (forall cfg, ConfigParser.read text = Ok cfg ->
                  CONFIG (snd (main_startup w)) = Some cfg)
  /\ (forall cfg, ConfigParser.read text = Ok cfg ->
                  ConfigParser.has_section cfg "nodes" = false ->
                  fst (main_startup w) = Raise (KeyError "nodes"))
  /\ (forall cfg states partitions enabled,
         ConfigParser.read text = Ok cfg ->
         ConfigParser.getitem cfg "nodes" "states_to_check" = Ok states ->
         ConfigParser.getitem cfg "nodes" "partitions_to_check" = Ok partitions ->
         ConfigParser.getitem cfg "email" "enabled" = Ok enabled ->
         fst (main_startup w) = Ok (states, partitions, str_to_bool enabled)).
Proof.
  destruct w as [c file out calls sent]. cbn [config_file]. intros ->.
  cbv beta iota zeta delta [main_startup bind config_assign isfile
                              config_read config_get ret CONFIG config_file
                              console send_email_calls outbox].
  split; [|split; [|split]].
  - intros e ->. reflexivity.
  - intros cfg ->. cbv beta iota.
    repeat match goal with
           | |- context [ConfigParser.getitem cfg ?a ?b] =>
               destruct (ConfigParser.getitem cfg a b); cbv beta iota
           end; reflexivity.
  - intros cfg -> H. cbv beta iota.
    unfold ConfigParser.getitem at 1. rewrite H. reflexivity.
  - intros cfg states partitions enabled -> H1 H2 H3. cbv beta iota.
    rewrite H1; cbv beta iota. rewrite H2; cbv beta iota.
    rewrite H3; reflexivity.
Qed.

End Startup.

(* ================================================================== *)
(** ** A listing read back, and a missing signature *)

Lemma plain_name_field (name : string) :
  plain_name name = true -> first_field name = name.
Proof.
  unfold plain_name. intros H.
  apply andb_true_iff in H as [H _]. apply andb_true_iff in H as [_ H].
  apply negb_true_iff in H. unfold first_field.
  now rewrite (split_absent _ _ H).
Qed.

Lemma plain_names_kept (names : list string) :
  forallb plain_name names = true ->
  map first_field (purge_element names EmptyString) = names.
Proof.
  induction names as [|n r IH]; [reflexivity|]. cbn [forallb].
  intros H. apply andb_true_iff in H as [Hn Hr].
  cbn [purge_element filter].
  assert (String.eqb n EmptyString = false) as ->.
  { unfold plain_name in Hn. apply andb_true_iff in Hn as [Hn _].
    apply andb_true_iff in Hn as [Hn _]. now apply negb_true_iff in Hn. }
  cbn [negb map]. rewrite (plain_name_field n Hn).
  f_equal. now apply IH.
Qed.

Lemma node_names_of_listing (names : list string) :
  forallb plain_name names = true ->
  node_names (Py.join Py.nl names) = names
  /\ node_names (Py.join Py.nl names +++ Py.nl) = names.
Proof.
  intros H.
  assert (node_names (Py.join Py.nl names) = names) as E.
  { destruct names as [|a r]; [reflexivity|].
    unfold node_names, kept_lines, Py.nl. rewrite split_join.
    - now apply plain_names_kept.
    - apply Forall_forall. intros x Hx.
      rewrite forallb_forall in H. specialize (H x Hx).
      unfold plain_name in H. apply andb_true_iff in H as [_ H].
      now apply negb_true_iff in H. }
  split; [exact E|].
  unfold node_names in *. unfold Py.nl at 2.
  rewrite kept_lines_app, map_app, E. cbn. apply app_nil_r.
Qed.

(** X19.  A listing read back: when the query succeeds and prints one
    name per line (names that are not empty and hold no space), with or
    without a line feed after the last one, [find_slurm_nodes] returns
    exactly these names, in order. *)
Theorem find_slurm_nodes_reads_listing (subprocess_run : string -> CompletedProcess)
        (states partitions : string) (w : World) (names : list string) :
  returncode (subprocess_run (sinfo_command states partitions)) = 0%Z ->
  forallb plain_name names = true ->
  stdout (subprocess_run (sinfo_command states partitions)) = Py.join Py.nl names
  \/ stdout (subprocess_run (sinfo_command states partitions))
     = Py.join Py.nl names +++ Py.nl ->
  fst (find_slurm_nodes subprocess_run states partitions w) = Ok names.
Proof.
  intros E Hn Hout. rewrite find_slurm_nodes_success by assumption. cbn [fst].
  destruct (node_names_of_listing names Hn) as [H1 H2].
  destruct Hout as [-> | ->]; congruence.
Qed.

(** X20.  Without a [signature] in the configuration [send_email]
    raises the lookup's exception at once: nothing is printed and no mail
    session is opened. *)
Theorem send_email_without_signature (smtp_relay : SmtpSession -> option exn)
        (header_factory : string -> string -> option exn)
        (w : World) (cfg : ConfigParser.t) (to _from subject body : string) (e : exn) :
  CONFIG w = Some cfg ->
  ConfigParser.getitem cfg "email" "signature" = Raise e ->
  send_email smtp_relay header_factory to _from subject body w
  = (Raise e, extended w [] [email_call to _from subject body] []).
Proof.
  intros Hc He. destruct w as [c file out calls sent]. cbn [CONFIG] in Hc.
  subst c.
  cbv beta iota zeta delta [send_email bind record_call config_get extended
                              CONFIG config_file console send_email_calls
                              outbox].
  rewrite He. now rewrite !app_nil_r.
Qed.

(* ================================================================== *)
(** ** These statements at work on sample runs *)

Lemma sample_settings : mail_settings_of sample_config sample_mail_settings.
Proof. repeat split. Qed.


Lemma multiline_str_split_witness :
  Py.split Py.LF (multiline_str ["command:"; "sinfo"; "exit code:"; "0"])
  = ["command:"; "sinfo"; "exit code:"; "0"].
Proof.
  apply multiline_str_split; [discriminate|].
  repeat constructor.
Defined.

Lemma purge_element_removes_all_witness :
  purge_element ["gpu01"; "gpu02"] EmptyString = ["gpu01"; "gpu02"].
Proof.
  apply (proj1 (proj2 (proj2 (purge_element_removes_all
                                ["gpu01"; "gpu02"] EmptyString)))).
  cbn. intuition discriminate.
Defined.

Lemma find_slurm_nodes_names_one_word_witness :
  Py.contains Py.SP "gpu02" = false /\ Py.contains Py.LF "gpu02" = false.
Proof.
  apply (find_slurm_nodes_names_one_word (shell_answers sample_listing 0)
           "mixed,idle" "gpu" sample_world ["gpu01"; "gpu02"] "gpu02").
  - reflexivity.
  - cbn. auto.
Defined.

Lemma find_slurm_nodes_empty_iff_witness :
  fst (find_slurm_nodes (shell_answers (Py.nl +++ Py.nl) 0) "mixed,idle" "gpu"
                        sample_world) = Ok [].
Proof.
  apply (proj1 (find_slurm_nodes_empty_iff (shell_answers (Py.nl +++ Py.nl) 0)
                  "mixed,idle" "gpu" sample_world eq_refl)).
  reflexivity.
Defined.

Lemma send_email_delivers_witness :
  fst (send_email relay_accepts headers_accepted "ops@example.org" "gpu-checker@example.org"
                  "subject" "body" sample_world) = Ok tt
  /\ List.length
       (outbox (snd (send_email relay_accepts headers_accepted "ops@example.org"
                                "gpu-checker@example.org" "subject" "body"
                                sample_world))) = 1.
Proof.
  destruct (send_email_delivers relay_accepts headers_accepted sample_world sample_config
              sample_mail_settings eq_refl sample_settings
              "ops@example.org" "gpu-checker@example.org" "subject" "body"
              25%Z eq_refl eq_refl eq_refl eq_refl eq_refl) as [-> _].
  split; reflexivity.
Defined.

Lemma send_email_refused_witness :
  fst (send_email relay_refuses headers_accepted "ops@example.org" "gpu-checker@example.org"
                  "subject" "body" sample_world) = Raise SMTPException.
Proof.
  rewrite (send_email_refused relay_refuses headers_accepted sample_world sample_config
             sample_mail_settings eq_refl sample_settings
             "ops@example.org" "gpu-checker@example.org" "subject" "body"
             25%Z SMTPException eq_refl eq_refl eq_refl eq_refl eq_refl).
  reflexivity.
Defined.


Lemma check_gpu_healthy_witness :
  check_gpu (shell_answers healthy_probe_output 0) relay_refuses headers_accepted "gpu03"
            (Py.BoolV true) sample_world
  = (Ok true, printed "gpu works on node gpu03" sample_world).
Proof.
  apply (check_gpu_healthy (shell_answers healthy_probe_output 0) relay_refuses headers_accepted
           "gpu03" "monitor" "/etc/gpu-checker/id" sample_world sample_config
           eq_refl eq_refl eq_refl (Py.BoolV true) eq_refl).
Defined.

Lemma check_gpu_unhealthy_notifies_witness :
  fst (check_gpu (shell_answers failed_probe_output 0) relay_accepts headers_accepted "gpu03"
                 (Py.BoolV true) sample_world) = Ok false
  /\ map call_subject
         (send_email_calls
            (snd (check_gpu (shell_answers failed_probe_output 0) relay_accepts headers_accepted
                            "gpu03" (Py.BoolV true) sample_world)))
     = ["gpu-checker has detected an error on node gpu03"].
Proof.
  rewrite (check_gpu_unhealthy_notifies
             (shell_answers failed_probe_output 0) relay_accepts headers_accepted
             "gpu03" "monitor" "/etc/gpu-checker/id" sample_world sample_config
             eq_refl eq_refl eq_refl
             "ops@example.org" "gpu-checker@example.org" sample_mail_settings
             25%Z eq_refl eq_refl sample_settings eq_refl eq_refl eq_refl
             (Py.BoolV true) eq_refl eq_refl eq_refl eq_refl).
  split; reflexivity.
Defined.

Lemma check_gpu_unhealthy_refused_witness :
  fst (check_gpu (shell_answers failed_probe_output 0) relay_refuses headers_accepted "gpu03"
                 (Py.BoolV true) sample_world) = Raise SMTPException.
Proof.
  rewrite (check_gpu_unhealthy_refused
             (shell_answers failed_probe_output 0) relay_refuses headers_accepted
             "gpu03" "monitor" "/etc/gpu-checker/id" sample_world sample_config
             eq_refl eq_refl eq_refl
             "ops@example.org" "gpu-checker@example.org" sample_mail_settings
             25%Z eq_refl eq_refl sample_settings eq_refl eq_refl eq_refl
             (Py.BoolV true) SMTPException eq_refl eq_refl eq_refl eq_refl).
  reflexivity.
Defined.

Lemma main_loop_body_two_emails_witness :
  map call_subject
      (send_email_calls
         (snd (main_loop_body (shell_answers failed_probe_output 0) relay_accepts headers_accepted
                              "gpu03" (Py.BoolV true) sample_world)))
  = ["gpu-checker has detected an error on node gpu03";
     "gpu-checker has drained node gpu03"].
Proof.
  rewrite (main_loop_body_two_emails
             (shell_answers failed_probe_output 0) relay_accepts headers_accepted
             "gpu03" "monitor" "/etc/gpu-checker/id" sample_world sample_config
             eq_refl eq_refl eq_refl
             "ops@example.org" "gpu-checker@example.org" sample_mail_settings
             25%Z eq_refl eq_refl sample_settings eq_refl eq_refl eq_refl
             (Py.BoolV true) eq_refl eq_refl (fun _ => eq_refl)
             eq_refl eq_refl).
  reflexivity.
Defined.


Lemma main_loop_body_refused_witness :
  map call_subject
      (send_email_calls
         (snd (main_loop_body (shell_answers failed_probe_output 0) relay_refuses headers_accepted
                              "gpu03" (Py.BoolV true) sample_world)))
  = ["gpu-checker has detected an error on node gpu03"].
Proof.
  rewrite (main_loop_body_refused
             (shell_answers failed_probe_output 0) relay_refuses headers_accepted
             "gpu03" "monitor" "/etc/gpu-checker/id" sample_world sample_config
             eq_refl eq_refl eq_refl
             "ops@example.org" "gpu-checker@example.org" sample_mail_settings
             25%Z eq_refl eq_refl sample_settings eq_refl eq_refl eq_refl
             (Py.BoolV true) SMTPException eq_refl eq_refl eq_refl eq_refl).
  reflexivity.
Defined.

Lemma main_cycle_silent_witness :
  send_email_calls
    (snd (main_cycle (shell_answers failed_probe_output 0) relay_accepts headers_accepted
                     "mixed,idle" "gpu" Py.NoneV sample_world)) = [].
Proof.
  apply (main_cycle_silent (shell_answers failed_probe_output 0) relay_accepts headers_accepted
           "mixed,idle" "gpu" Py.NoneV sample_world eq_refl).
Defined.

Lemma main_startup_file_witness :
  config_file (snd (main_startup (restart (snd (main_startup world0)))))
  = Some (ConfigParser.write default_config).
Proof.
  apply (proj1 (main_startup_file (restart (snd (main_startup world0))))).
  reflexivity.
Defined.

Lemma main_startup_from_file_witness :
  let w := {| CONFIG := None; config_file := Some "[email]";
              console := []; send_email_calls := []; outbox := [] |} in
  fst (main_startup w) = Raise (KeyError "nodes").
Proof.
  apply (proj1 (proj2 (proj2 (main_startup_from_file
                                {| CONFIG := None; config_file := Some "[email]";
                                   console := []; send_email_calls := [];
                                   outbox := [] |} "[email]" eq_refl)))
           {| ConfigParser.defaults := [];
              ConfigParser.sections := [("email", [])] |});
    reflexivity.
Defined.

Lemma find_slurm_nodes_reads_listing_witness :
  fst (find_slurm_nodes (shell_answers ("gpu01" +++ Py.nl +++ "gpu02" +++ Py.nl) 0)
                        "mixed,idle" "gpu" sample_world)
  = Ok ["gpu01"; "gpu02"].
Proof.
  apply find_slurm_nodes_reads_listing; [reflexivity|reflexivity|].
  right. reflexivity.
Defined.

Lemma send_email_without_signature_witness :
  fst (send_email relay_accepts headers_accepted "ops@example.org" "gpu-checker@example.org"
                  "subject" "body" world_without_signature)
  = Raise (KeyError "signature").
Proof.
  rewrite (send_email_without_signature relay_accepts headers_accepted world_without_signature
             config_without_signature "ops@example.org"
             "gpu-checker@example.org" "subject" "body" (KeyError "signature")
             eq_refl eq_refl).
  reflexivity.
Defined.
